(** * Account Locker: schedule evaluation, time offset and password gate

    A shallow embedding of the decision logic of [AccountLocker.py]:
    the lock-window test of [LockerApp.check_lock], the countdown of
    [SetupDialog.update_countdown], the clock correction of
    [LockerApp.sync_time] / [LockerApp.current_time] and the password
    check of [LockerApp.verify].

    Conventions of the embedding.
    - A Python [datetime] is its proleptic ordinal day together with
      its wall-clock fields; every datetime of the program carries the
      same fixed-offset [tzinfo], so comparison and subtraction act on
      the wall-clock fields, as Python does for a shared [tzinfo].
      The ordinal is an unbounded integer: [add] is the sum Python
      returns while the day of the sum lies in 1..[MAXORDINAL]
      (0001-01-01 to 9999-12-31), where Python raises
      [OverflowError] beyond.  A property that asserts that an
      instant is returned states that range as a hypothesis
      ([in_date_range]).
    - A [timedelta] is its exact count of microseconds.
    - An exception is an explicit [Raise] outcome.
    - Log records and user-interface effects are collected in a trace. *)

From Stdlib Require Import ZArith List String Bool Lia Sorted.
Import ListNotations.
Open Scope Z_scope.

(** ** Exceptions and outcomes *)

Inductive exn : Type :=
| ValueError (msg : string)
| RequestException (msg : string)
| OSError (msg : string).

Inductive outcome (A : Type) : Type :=
| Return (a : A)
| Raise (e : exn).

Arguments Return {A} a.
Arguments Raise {A} e.

Definition bind {A B : Type} (m : outcome A) (k : A -> outcome B) : outcome B :=
  match m with
  | Return a => k a
  | Raise e => Raise e
  end.

Notation "x <- m ;; k" := (bind m (fun x => k))
  (at level 61, m at next level, right associativity).

(** ** The pieces of Python's [datetime] module the program uses *)

Module Datetime.

(** [datetime.time]: naive time of day. *)
Record time : Type := mktime {
  hour : Z;
  minute : Z;
  second : Z;
  microsecond : Z
}.

(** [time(hour, minute)], with the constructor's range checks. *)
Definition dtime (h m : Z) : outcome time :=
  if negb ((0 <=? h) && (h <=? 23)) then Raise (ValueError "hour must be in 0..23")
  else if negb ((0 <=? m) && (m <=? 59)) then Raise (ValueError "minute must be in 0..59")
  else Return (mktime h m 0 0).

(** Comparison of naive times: the tuples (hour, minute, second,
    microsecond) in lexicographic order. *)
Definition time_cmp (a b : time) : comparison :=
  match hour a ?= hour b with
  | Eq =>
    match minute a ?= minute b with
    | Eq =>
      match second a ?= second b with
      | Eq => microsecond a ?= microsecond b
      | c => c
      end
    | c => c
    end
  | c => c
  end.

Definition time_ltb (a b : time) : bool :=
  match time_cmp a b with Lt => true | _ => false end.
Definition time_leb (a b : time) : bool :=
  match time_cmp a b with Gt => false | _ => true end.
Definition time_geb (a b : time) : bool :=
  match time_cmp a b with Lt => false | _ => true end.

Definition valid_time (t : time) : bool :=
  (0 <=? hour t) && (hour t <=? 23) &&
  (0 <=? minute t) && (minute t <=? 59) &&
  (0 <=? second t) && (second t <=? 59) &&
  (0 <=? microsecond t) && (microsecond t <=? 999999).

(** [datetime.timedelta], as a count of microseconds. *)
Definition timedelta : Type := Z.

Definition us_per_second : Z := 1000000.
Definition us_per_day : Z := 86400 * us_per_second.

(** [timedelta(days=n)]. *)
Definition timedelta_days (n : Z) : timedelta := n * us_per_day.

(** [datetime.datetime]: [toordinal()] and the time fields. *)
Record datetime : Type := mkdatetime {
  toordinal : Z;
  timeof : time                      (* [.time()] *)
}.

Definition valid_datetime (d : datetime) : bool := valid_time (timeof d).

(** [datetime.weekday()]: Monday is 0, Sunday is 6. *)
Definition weekday (d : datetime) : Z := (toordinal d + 6) mod 7.

(** Comparison of datetimes sharing a [tzinfo]. *)
Definition datetime_cmp (a b : datetime) : comparison :=
  match toordinal a ?= toordinal b with
  | Eq => time_cmp (timeof a) (timeof b)
  | c => c
  end.

Definition datetime_gtb (a b : datetime) : bool :=
  match datetime_cmp a b with Gt => true | _ => false end.

(** The microseconds from midnight to a time of day. *)
Definition tod_us (t : time) : Z :=
  ((hour t * 60 + minute t) * 60 + second t) * us_per_second + microsecond t.

(** The microseconds from the start of ordinal day 0 to [d]:
    [timedelta(d.toordinal(), hours=..., minutes=..., seconds=...,
    microseconds=...)]. *)
Definition to_us (d : datetime) : Z :=
  toordinal d * us_per_day + tod_us (timeof d).

(** [datetime.__add__]: normalise the sum into days, seconds and
    microseconds, then split the seconds with [divmod].  Python
    returns this value when [0 < days <= _MAXORDINAL] and raises
    [OverflowError] otherwise; see [in_date_range]. *)
Definition add (d : datetime) (td : timedelta) : datetime :=
  let total := to_us d + td in
  let days := total / us_per_day in
  let rest := total mod us_per_day in
  let seconds := rest / us_per_second in
  let micros := rest mod us_per_second in
  let h := seconds / 3600 in
  let rem := seconds mod 3600 in
  mkdatetime days (mktime h (rem / 60) (rem mod 60) micros).

(** [datetime.__sub__] on two datetimes. *)
Definition sub (a b : datetime) : timedelta := to_us a - to_us b.

(** [d.replace(hour=h, minute=m, second=0, microsecond=0)], with the
    range checks of the constructor it calls. *)
Definition replace_hm (d : datetime) (h m : Z) : outcome datetime :=
  if negb ((0 <=? h) && (h <=? 23)) then Raise (ValueError "hour must be in 0..23")
  else if negb ((0 <=? m) && (m <=? 59)) then Raise (ValueError "minute must be in 0..59")
  else Return (mkdatetime (toordinal d) (mktime h m 0 0)).

(** [date.max.toordinal()], the ordinal of 9999-12-31. *)
Definition MAXORDINAL : Z := 3652059.

(** The test [0 < days <= _MAXORDINAL] that [datetime.__add__] makes
    on the day of its result: the ordinals of representable dates. *)
Definition in_date_range (ordinal : Z) : bool :=
  (0 <? ordinal) && (ordinal <=? MAXORDINAL).

(** [datetime.__add__] with that test: [None] is [OverflowError]. *)
Definition add_checked (d : datetime) (td : timedelta) : option datetime :=
  let sum := add d td in
  if in_date_range (toordinal sum) then Some sum else None.

End Datetime.

Import Datetime.

(** ** Configuration *)

(** [Config.data].  The ['HH:MM'] strings under ['lock_time'] and
    ['unlock_time'] are held as the integer pairs that
    [map(int, s.split(':'))] reads from them. *)
Record Config : Type := mkConfig {
  password_hash : string;
  lock_time : Z * Z;
  unlock_time : Z * Z;
  days : list Z;
  enabled : bool
}.

(** [x in days] on a list of integers. *)
Definition mem (x : Z) (l : list Z) : bool := existsb (Z.eqb x) l.

(** ** Trace of observable effects *)

Inductive log_record : Type :=
| TimeOffsetDebug (off : timedelta)      (* debug: 'Time offset (google_local - sys_local): ...' *)
| TimeSyncFailed (e : exn)               (* error: 'Time sync failed: ...' *)
| ScheduledLockTriggered                 (* info: 'Scheduled lock triggered' *)
| LockingWorkstation                     (* info: 'Locking workstation' *)
| LockFailed (e : exn)                   (* error: 'Lock failed: ...' *)
| PasswordAttemptFailed (total : Z).     (* warning: 'Password attempt failed (n total)' *)

Inductive event : Type :=
| Log (r : log_record)
| LockWorkStation                        (* ctypes.windll.user32.LockWorkStation() *)
| IncorrectPasswordBox (total : Z).      (* QMessageBox.warning(..., 'Incorrect password...') *)

(** ** The lock window *)

(** The window test shared by [check_lock] and [update_countdown]:
<<
    if lock_t < unlock_t:
        in_window = (lock_t <= now_t < unlock_t)
    else:
        in_window = (now_t >= lock_t) or (now_t < unlock_t)
>> *)
Definition in_window (lock_t unlock_t now_t : time) : bool :=
  if time_ltb lock_t unlock_t
  then time_leb lock_t now_t && time_ltb now_t unlock_t
  else time_geb now_t lock_t || time_ltb now_t unlock_t.

(** [LockerApp.lock_workstation]; [os_error] is the exception the
    operating-system call raises, if any. *)
Definition lock_workstation (os_error : option exn) : list event :=
  Log LockingWorkstation :: LockWorkStation ::
  match os_error with
  | None => []
  | Some e => [Log (LockFailed e)]
  end.

(** The decision taken by [check_lock] (its lines up to the
    computation of [in_window]): the early [return] is [false]. *)
Definition isInWindow (cfg : Config) (now : datetime) : outcome bool :=
  if negb (enabled cfg) || negb (mem (weekday now) (days cfg)) then Return false
  else
    let '(lock_h, lock_m) := lock_time cfg in
    let '(unlock_h, unlock_m) := unlock_time cfg in
    let now_t := timeof now in
    lock_t <- dtime lock_h lock_m ;;
    unlock_t <- dtime unlock_h unlock_m ;;
    Return (in_window lock_t unlock_t now_t).

(** [LockerApp.check_lock] at corrected time [now]. *)
Definition check_lock (cfg : Config) (now : datetime) (os_error : option exn)
  : outcome (list event) :=
  if negb (enabled cfg) || negb (mem (weekday now) (days cfg)) then Return []
  else
    let '(lock_h, lock_m) := lock_time cfg in
    let '(unlock_h, unlock_m) := unlock_time cfg in
    let now_t := timeof now in
    lock_t <- dtime lock_h lock_m ;;
    unlock_t <- dtime unlock_h unlock_m ;;
    let in_w := in_window lock_t unlock_t now_t in
    if in_w then Return (Log ScheduledLockTriggered :: lock_workstation os_error)
    else Return [].

(** The controller's timer: [check_lock] runs once per poll tick.  A
    tick carries the corrected time at which it fires and the failure
    of the operating-system call, if it is to fail.  An exception that
    leaves [check_lock] ends the run. *)
Fixpoint run_ticks (cfg : Config) (ticks : list (datetime * option exn))
  : outcome (list event) :=
  match ticks with
  | [] => Return []
  | (now, os_error) :: rest =>
    evs <- check_lock cfg now os_error ;;
    more <- run_ticks cfg rest ;;
    Return (evs ++ more)
  end.

Definition is_lock_call (e : event) : bool :=
  match e with LockWorkStation => true | _ => false end.

(** How often a trace invokes the lock action. *)
Definition lock_calls (tr : list event) : nat :=
  List.length (filter is_lock_call tr).

(** ** The countdown of the setup dialog *)

(** [range(7)]. *)
Definition range7 : list Z := [0; 1; 2; 3; 4; 5; 6].

Section Countdown.

Variables (lock_h lock_m unlock_h unlock_m : Z).
Variable days_ : list Z.
Variable now : datetime.
Variables (lock_t unlock_t : time).
Variable in_w : bool.

  (** The candidate instant of iteration [i] of the loop, before the
      test [base > now]. *)
Definition candidate (i : Z) : outcome datetime :=
    let d := (weekday now + i) mod 7 in
    let now_t := timeof now in
    base <- replace_hm (add now (timedelta_days i))
                       (if negb in_w then lock_h else unlock_h)
                       (if negb in_w then lock_m else unlock_m) ;;
    Return (if in_w && time_geb lock_t unlock_t && (d =? weekday now)
            then (if time_geb now_t unlock_t then add base (timedelta_days 1) else base)
            else base).

  (** The loop [for i in range(7)]: [continue] on a day that is not
      enabled, [break] at the first candidate after [now]. *)
Fixpoint scan (idxs : list Z) : outcome (option datetime) :=
    match idxs with
    | [] => Return None
    | i :: rest =>
      let d := (weekday now + i) mod 7 in
      if negb (mem d days_) then scan rest
      else
        base <- candidate i ;;
        if datetime_gtb base now then Return (Some base) else scan rest
    end.

End Countdown.

(** The value [next_dt] that [update_countdown] computes at corrected
    time [now] from the lock and unlock times, the checked days and
    the enable box; [None] is the label ['N/A']. *)
Definition nextTransition (lock unlock : Z * Z) (days_ : list Z) (enabled_ : bool)
           (now : datetime) : outcome (option datetime) :=
  let '(lock_h, lock_m) := lock in
  let '(unlock_h, unlock_m) := unlock in
  if negb enabled_ || negb (mem (weekday now) days_) then Return None
  else
    let now_t := timeof now in
    lock_t <- dtime lock_h lock_m ;;
    unlock_t <- dtime unlock_h unlock_m ;;
    let in_w := in_window lock_t unlock_t now_t in
    scan lock_h lock_m unlock_h unlock_m days_ now lock_t unlock_t in_w range7.

(** The widgets of [SetupDialog] that the countdown reads. *)
Record SetupDialog : Type := mkSetupDialog {
  time_edit : Z * Z;
  unlock_edit : Z * Z;
  day_checks : list bool;
  enable_cb : bool;
  dialog_offset : timedelta
}.

(** [[i for i, cb in enumerate(self.day_checks) if cb.isChecked()]]. *)
Fixpoint checked_from (i : Z) (cbs : list bool) : list Z :=
  match cbs with
  | [] => []
  | cb :: rest => if cb then i :: checked_from (i + 1) rest else checked_from (i + 1) rest
  end.

(** [SetupDialog.update_countdown]; [sys_now] is [datetime.now(self.local_tz)]. *)
Definition update_countdown (dlg : SetupDialog) (sys_now : datetime)
  : outcome (option datetime) :=
  let now := add sys_now (dialog_offset dlg) in
  nextTransition (time_edit dlg) (unlock_edit dlg)
                 (checked_from 0 (day_checks dlg)) (enable_cb dlg) now.

(** ** The tray application: clock correction and password gate *)

Inductive tooltip : Type :=
| TipPlain                               (* 'Account Locker' *)
| TipFailed (total : Z).                 (* 'Account Locker (Failed attempts: n)' *)

Record LockerApp : Type := mkLockerApp {
  config : Config;
  failed_attempts : Z;
  offset : timedelta;
  local_tz : timedelta;                  (* the fixed UTC offset of [self.local_tz] *)
  toolTip : tooltip
}.

Definition set_offset (app : LockerApp) (off : timedelta) : LockerApp :=
  mkLockerApp (config app) (failed_attempts app) off (local_tz app) (toolTip app).

Definition set_attempts (app : LockerApp) (n : Z) (tip : tooltip) : LockerApp :=
  mkLockerApp (config app) n (offset app) (local_tz app) tip.

(** What [requests.head('https://www.google.com', timeout=5)] does:
    it raises, or it answers with headers whose ['Date'] entry is
    [r.headers.get('Date')]. *)
Inductive head_result : Type :=
| HeadRaises (e : exn)
| HeadResponse (date_str : option string).

(** Truth value of [date_str]: [None] and the empty string are false. *)
Definition truthy (date_str : option string) : option string :=
  match date_str with
  | Some EmptyString => None
  | other => other
  end.

Section Libraries.

  (** [datetime.strptime(s, '%a, %d %b %Y %H:%M:%S GMT')]: the parsed
      wall-clock fields, or the [ValueError] it raises. *)
Variable strptime : string -> outcome datetime.

  (** [hashlib.sha256(pw.encode('utf-8')).hexdigest()]. *)
Variable sha256_hexdigest : string -> string.

Definition hash_password (pw : string) : string := sha256_hexdigest pw.

  (** The body of the [try] block of [work] in [sync_time];
      [sys_local] is [datetime.now(self.local_tz)] when it is read. *)
Definition work_try (app : LockerApp) (r : head_result) (sys_local : datetime)
    : outcome (LockerApp * list event) :=
    match r with
    | HeadRaises e => Raise e
    | HeadResponse date_str =>
      match truthy date_str with
      | Some s =>
        dt_utc <- strptime s ;;
        let dt_local := add dt_utc (local_tz app) in
        let off := sub dt_local sys_local in
        Return (set_offset app off, [Log (TimeOffsetDebug off)])
      | None => Return (app, [])
      end
    end.

  (** [work], the thread body of [LockerApp.sync_time], with its
      [except Exception] handler. *)
Definition work (app : LockerApp) (r : head_result) (sys_local : datetime)
    : LockerApp * list event :=
    match work_try app r sys_local with
    | Return res => res
    | Raise e => (app, [Log (TimeSyncFailed e)])
    end.

  (** [LockerApp.verify]; [(pw, ok)] is what the password dialog returns. *)
Definition verify (app : LockerApp) (pw : string) (ok : bool)
    : bool * LockerApp * list event :=
    if negb ok then (false, app, [])
    else if String.eqb (hash_password pw) (password_hash (config app))
    then (true, set_attempts app 0 TipPlain, [])
    else
      let n := failed_attempts app + 1 in
      (false, set_attempts app n (TipFailed n),
       [Log (PasswordAttemptFailed n); IncorrectPasswordBox n]).

End Libraries.


(** ** Notions of the specification *)

(** The window decision as a plain boolean (an exception is no lock). *)
Definition in_window_at (cfg : Config) (now : datetime) : bool :=
  match isInWindow cfg now with
  | Return b => b
  | Raise _ => false
  end.

(** Entries into the lock window over a sequence of poll ticks, in the
    words of the specification: a tick enters the window when the
    window is active at it and was not active at the tick before
    ([was_in]; the controller starts outside the window). *)
Fixpoint window_entries (cfg : Config) (was_in : bool)
         (ticks : list (datetime * option exn)) : nat :=
  match ticks with
  | [] => 0%nat
  | (now, _) :: rest =>
    let b := in_window_at cfg now in
    ((if b && negb was_in then 1 else 0) + window_entries cfg b rest)%nat
  end.

(** The ticks at which the window is active. *)
Definition ticks_in_window (cfg : Config) (ticks : list (datetime * option exn)) : nat :=
  List.length (filter (fun t => in_window_at cfg (fst t)) ticks).


(** The trace holds an error record of a failed time sync. *)
Definition logs_sync_failure (tr : list event) : bool :=
  existsb (fun e => match e with Log (TimeSyncFailed _) => true | _ => false end) tr.

(** The countdown in the words of the specification.  The target
    time of day is the unlock time inside the window and the lock
    time outside it. *)
Definition target (lock_t unlock_t : time) (now : datetime) : time :=
  if in_window lock_t unlock_t (timeof now) then unlock_t else lock_t.

(** The one-day advance of the wrap case: inside the window, the
    window wraps, the candidate day is today and the unlock time of
    day has passed. *)
Definition advance (lock_t unlock_t : time) (now : datetime) (i : Z) : bool :=
  in_window lock_t unlock_t (timeof now) && time_geb lock_t unlock_t &&
  ((weekday now + i) mod 7 =? weekday now) && time_geb (timeof now) unlock_t.

(** The candidate instant [i] days ahead. *)
Definition candidate_at (lock_t unlock_t : time) (now : datetime) (i : Z) : datetime :=
  mkdatetime (toordinal now + i + (if advance lock_t unlock_t now i then 1 else 0))
             (target lock_t unlock_t now).

(** Day [i] ahead is enabled and its candidate is after [now]. *)
Definition qualifies (lock_t unlock_t : time) (days_ : list Z) (now : datetime) (i : Z) : bool :=
  mem ((weekday now + i) mod 7) days_ && datetime_gtb (candidate_at lock_t unlock_t now i) now.

(** ** Concrete schedules and instants *)

(** [DEFAULT_CONFIG] of the program: lock at 18:00, unlock at 06:00,
    every day, enabled. *)
Definition all_days : list Z := [0; 1; 2; 3; 4; 5; 6].
Definition DEFAULT_CONFIG : Config := mkConfig "" (18, 0) (6, 0) all_days true.

(** 2024-01-01, a Monday, has ordinal 738886. *)
Definition monday : Z := 738886.
Definition tuesday : Z := 738887.
Definition saturday : Z := 738891.

Definition at_time (ordinal h m : Z) : datetime := mkdatetime ordinal (mktime h m 0 0).

(** Lock and unlock both at 12:00, every day. *)
Definition noon_config : Config := mkConfig "" (12, 0) (12, 0) all_days true.

(** The default times on Mondays only. *)
Definition monday_only : Config := mkConfig "" (18, 0) (6, 0) [0] true.

(** Two consecutive poll ticks on Monday evening. *)
Definition evening_ticks : list (datetime * option exn) :=
  [(at_time monday 20 0, None); (at_time monday 20 1, None)].

(** Four ticks around the lock time; the system call fails at the third. *)
Definition lock_time_ticks : list (datetime * option exn) :=
  [(at_time monday 17 59, None); (at_time monday 18 0, None);
   (at_time monday 18 1, Some (OSError "access denied"));
   (at_time tuesday 6 0, None)].




(** A stand-in for the digest, for running [verify] on examples. *)
Definition prefix_digest (pw : string) : string := String.append "digest:" pw.

(** An application state: the default schedule, the password
    ['hunter2'], two failed attempts so far, the clock five seconds
    fast, local time one hour ahead of UTC. *)
Definition sample_app : LockerApp :=
  mkLockerApp (mkConfig (prefix_digest "hunter2") (18, 0) (6, 0) all_days true)
              2 (-5000000) 3600000000 (TipFailed 2).

(** ** More of the program *)

(** *** The countdown label *)

(** The text that [update_countdown] sets on [time_until_label]:
    ['N/A'], [f"{d}d {h}h {m}m"] or [f"{h}h {m}m {s}s"]. *)
Inductive countdown_text : Type :=
| TextNA
| TextDaysHoursMinutes (d h m : Z)
| TextHoursMinutesSeconds (h m s : Z).

(** [timedelta.days] and [timedelta.seconds] of a normalised timedelta. *)
Definition timedelta_days_of (td : timedelta) : Z := td / us_per_day.
Definition timedelta_seconds_of (td : timedelta) : Z := (td mod us_per_day) / us_per_second.

(** The lines of [update_countdown] after the loop. *)
Definition time_until_text (next_dt : option datetime) (now : datetime) : countdown_text :=
  match next_dt with
  | None => TextNA
  | Some next =>
    let delta := sub next now in
    let d := timedelta_days_of delta in
    let rem := timedelta_seconds_of delta in
    let h := rem / 3600 in
    let rem := rem mod 3600 in
    let m := rem / 60 in
    let s := rem mod 60 in
    if 0 <? d then TextDaysHoursMinutes d h m else TextHoursMinutesSeconds h m s
  end.

(** [update_countdown], as the text it leaves on the label. *)
Definition update_countdown_text (dlg : SetupDialog) (sys_now : datetime)
  : outcome countdown_text :=
  let now := add sys_now (dialog_offset dlg) in
  next_dt <- update_countdown dlg sys_now ;;
  Return (time_until_text next_dt now).

(** *** The setup dialog: loading and saving the schedule *)

(** The checkbox loop of [init_ui]:
    [for i, name in enumerate(names): cb.setChecked(i in self.config.data['days'])]. *)
Definition init_day_checks (days_ : list Z) : list bool :=
  map (fun i => mem i days_) range7.

Inductive accept_result : Type :=
| Rejected                               (* warning box, dialog stays open *)
| Accepted (cfg : Config).               (* data written and saved, dialog closed *)

(** The four assignments of [accept] that copy the widgets into
    [config.data], on a configuration whose hash is [hash]. *)
Definition store_schedule (dlg : SetupDialog) (hash : string) : Config :=
  mkConfig hash (time_edit dlg) (unlock_edit dlg)
           (checked_from 0 (day_checks dlg)) (enable_cb dlg).

(** [SetupDialog.accept]; [pw1] and [pw2] are the texts of the two
    password fields.  A string is true when it is not empty. *)
Definition accept (sha256_hexdigest : string -> string) (dlg : SetupDialog)
           (first_run : bool) (pw1 pw2 : string) (cfg : Config) : accept_result :=
  let pw1_true := negb (String.eqb pw1 EmptyString) in
  if first_run || pw1_true then
    if negb pw1_true || negb (String.eqb pw1 pw2) then Rejected
    else Accepted (store_schedule dlg (hash_password sha256_hexdigest pw1))
  else Accepted (store_schedule dlg (password_hash cfg)).

(** One press of OK: the widgets and the two password fields. *)
Record ok_press : Type := mkOkPress {
  press_dialog : SetupDialog;
  press_pw1 : string;
  press_pw2 : string
}.

(** [dlg.exec_()] on a dialog opened from the tray: the user presses
    OK some number of times and cancels when the presses run out; the
    first accepted press saves the configuration and closes the
    dialog.  The result is the configuration saved, if any. *)
Fixpoint dialog_exec (sha256_hexdigest : string -> string) (cfg : Config)
         (presses : list ok_press) : option Config :=
  match presses with
  | [] => None
  | p :: rest =>
    match accept sha256_hexdigest (press_dialog p) false (press_pw1 p) (press_pw2 p) cfg with
    | Accepted cfg' => Some cfg'
    | Rejected => dialog_exec sha256_hexdigest cfg rest
    end
  end.

(** *** The setup dialog: its own clock correction *)

Inductive google_text : Type :=
| GoogleFetching                         (* 'Fetching...' *)
| GoogleTime (dt_local : datetime)       (* dt_local.strftime('%Y-%m-%d %H:%M:%S') *)
| GoogleNA                               (* 'N/A' *)
| GoogleError.                           (* 'Error' *)

Definition set_dialog_offset (dlg : SetupDialog) (off : timedelta) : SetupDialog :=
  mkSetupDialog (time_edit dlg) (unlock_edit dlg) (day_checks dlg) (enable_cb dlg) off.

(** What [update_google_time] leaves behind: the dialog, the value
    assigned to [latest_google_time] if any, the label text, the
    exception logged as 'Google time fetch error' if any, and the
    countdown it ends with. *)
Record google_update : Type := mkGoogleUpdate {
  gu_dialog : SetupDialog;
  gu_latest : option datetime;
  gu_text : google_text;
  gu_logged : option exn;
  gu_countdown : outcome (option datetime)
}.

(** [SetupDialog.update_google_time]; [tz] is the UTC offset of
    [self.local_tz], [sys_local] the clock reading inside the [try]
    block and [sys_now] the reading of the closing [update_countdown]. *)
Definition update_google_time (strptime : string -> outcome datetime) (tz : timedelta)
           (dlg : SetupDialog) (r : head_result) (sys_local sys_now : datetime)
  : google_update :=
  let tried : outcome (SetupDialog * option datetime * google_text) :=
    match r with
    | HeadRaises e => Raise e
    | HeadResponse date_str =>
      match truthy date_str with
      | Some s =>
        dt_utc <- strptime s ;;
        let dt_local := add dt_utc tz in
        Return (set_dialog_offset dlg (sub dt_local sys_local), Some dt_local,
                GoogleTime dt_local)
      | None => Return (dlg, None, GoogleNA)
      end
    end in
  match tried with
  | Return (dlg', latest, text) =>
    mkGoogleUpdate dlg' latest text None (update_countdown dlg' sys_now)
  | Raise e =>
    mkGoogleUpdate dlg None GoogleError (Some e) (update_countdown dlg sys_now)
  end.

(** *** The tray application: its actions *)


Definition set_config (app : LockerApp) (cfg : Config) : LockerApp :=
  mkLockerApp cfg (failed_attempts app) (offset app) (local_tz app) (toolTip app).

Definition set_enabled (cfg : Config) (b : bool) : Config :=
  mkConfig (password_hash cfg) (lock_time cfg) (unlock_time cfg) (days cfg) b.

(** The text of the toggle entry of the tray menu. *)
Inductive menu_text : Type :=
| DisableSchedule
| EnableSchedule.

Definition toggle_text (cfg : Config) : menu_text :=
  if enabled cfg then DisableSchedule else EnableSchedule.

(** What a tray action leaves behind: the application, the trace, the
    configuration written to the file if [save] ran, the text set on
    the toggle entry if any, and whether the application quits. *)
Record tray_result : Type := mkTrayResult {
  tr_app : LockerApp;
  tr_events : list event;
  tr_saved : option Config;
  tr_menu : option menu_text;
  tr_quit : bool
}.

(** [LockerApp.toggle_schedule]. *)
Definition toggle_schedule (sha256_hexdigest : string -> string) (app : LockerApp)
           (pw : string) (ok : bool) : tray_result :=
  let '(verdict, app1, evs) := verify sha256_hexdigest app pw ok in
  if verdict then
    let cfg' := set_enabled (config app1) (negb (enabled (config app1))) in
    mkTrayResult (set_config app1 cfg') evs (Some cfg') (Some (toggle_text cfg')) false
  else mkTrayResult app1 evs None None false.

(** [LockerApp.open_settings]; [presses] is what the user does in the
    dialog. *)
Definition open_settings (sha256_hexdigest : string -> string) (app : LockerApp)
           (pw : string) (ok : bool) (presses : list ok_press) : tray_result :=
  let '(verdict, app1, evs) := verify sha256_hexdigest app pw ok in
  if verdict then
    let saved := dialog_exec sha256_hexdigest (config app1) presses in
    let cfg' := match saved with Some c => c | None => config app1 end in
    mkTrayResult (set_config app1 cfg') evs saved (Some (toggle_text cfg')) false
  else mkTrayResult app1 evs None None false.

(** [LockerApp.exit_app]. *)
Definition exit_app (sha256_hexdigest : string -> string) (app : LockerApp)
           (pw : string) (ok : bool) : tray_result :=
  let '(verdict, app1, evs) := verify sha256_hexdigest app pw ok in
  mkTrayResult app1 evs None None verdict.

(** A run of password dialogs, one [verify] each. *)
Fixpoint verify_all (sha256_hexdigest : string -> string) (app : LockerApp)
         (attempts : list (string * bool)) : LockerApp :=
  match attempts with
  | [] => app
  | (pw, ok) :: rest =>
    verify_all sha256_hexdigest (snd (fst (verify sha256_hexdigest app pw ok))) rest
  end.

(** *** The configuration file ([Config.load], [Config.save]) *)

(** The values that [json.load] can leave under a key of the
    configuration object. *)
Inductive json : Type :=
| JString (s : string)
| JBool (b : bool)
| JInts (l : list Z)
| JOther.

(** [Config.data] as the dictionary it is: keys in insertion order. *)
Definition dict : Type := list (string * json).

(** [d.get(k)]. *)
Fixpoint dict_get (k : string) (d : dict) : option json :=
  match d with
  | [] => None
  | (k', v) :: rest => if String.eqb k k' then Some v else dict_get k rest
  end.

(** [k in d]. *)
Definition dict_mem (k : string) (d : dict) : bool :=
  match dict_get k d with
  | Some _ => true
  | None => false
  end.

(** [d[k] = v]: the value of a present key is replaced in place, a
    new key goes to the end. *)
Fixpoint dict_set (k : string) (v : json) (d : dict) : dict :=
  match d with
  | [] => [(k, v)]
  | (k', v') :: rest =>
    if String.eqb k k' then (k', v) :: rest else (k', v') :: dict_set k v rest
  end.

(** The module constant [DEFAULT_CONFIG], as a dictionary. *)
Definition DEFAULT_CONFIG_data : dict :=
  [("password_hash"%string, JString "");
   ("lock_time"%string, JString "18:00");
   ("unlock_time"%string, JString "06:00");
   ("days"%string, JInts [0; 1; 2; 3; 4; 5; 6]);
   ("enabled"%string, JBool true)].

(** [Config.load]; [file] is the object in the configuration file,
    if the file exists. *)
Definition load (file : option dict) : dict :=
  match file with
  | Some data =>
    if negb (dict_mem "unlock_time" data)
    then
      match dict_get "unlock_time" DEFAULT_CONFIG_data with
      | Some v => dict_set "unlock_time" v data
      | None => data
      end
    else data
  | None => DEFAULT_CONFIG_data
  end.

(** [Config.save]: the file holds the dictionary afterwards. *)
Definition save (data : dict) : option dict := Some data.

(** A configuration file written before the unlock time existed. *)
Definition old_file : dict :=
  [("password_hash"%string, JString "digest:hunter2");
   ("lock_time"%string, JString "22:30");
   ("days"%string, JInts [0; 1; 2; 3; 4]);
   ("enabled"%string, JBool false)].

(** *** Notions used to state the properties *)

(** An attempt submits the right password. *)
Definition attempt_good (sha256_hexdigest : string -> string) (stored : string)
           (a : string * bool) : bool :=
  snd a && String.eqb (hash_password sha256_hexdigest (fst a)) stored.

(** An attempt submits a wrong password. *)
Definition attempt_wrong (sha256_hexdigest : string -> string) (stored : string)
           (a : string * bool) : bool :=
  snd a && negb (String.eqb (hash_password sha256_hexdigest (fst a)) stored).

(** The attempts after the last good one, if there is a good one. *)
Fixpoint after_last_good (good : string * bool -> bool) (l : list (string * bool))
  : option (list (string * bool)) :=
  match l with
  | [] => None
  | a :: rest =>
    match after_last_good good rest with
    | Some t => Some t
    | None => if good a then Some rest else None
    end
  end.

(** The schedule with its lock and unlock times exchanged. *)
Definition swap_times (cfg : Config) : Config :=
  mkConfig (password_hash cfg) (unlock_time cfg) (lock_time cfg) (days cfg) (enabled cfg).

(** The schedule with another list of days. *)
Definition with_days (cfg : Config) (days_ : list Z) : Config :=
  mkConfig (password_hash cfg) (lock_time cfg) (unlock_time cfg) days_ (enabled cfg).

(** An outcome with a function applied to its value. *)
Definition outcome_map {A B : Type} (f : A -> B) (m : outcome A) : outcome B :=
  match m with
  | Return a => Return (f a)
  | Raise e => Raise e
  end.

(** A sample widget state: 09:00 to 17:00, Monday to Friday. *)
Definition office_dialog : SetupDialog :=
  mkSetupDialog (9, 0) (17, 0) [true; true; true; true; true; false; false] true 0.

(** * Properties *)

(** ** Comparison of times and datetimes *)

Lemma time_cmp_refl (a : time) : time_cmp a a = Eq.
Proof.
  unfold time_cmp. now rewrite !Z.compare_refl.
Qed.

Lemma time_cmp_antisym (a b : time) : time_cmp b a = CompOpp (time_cmp a b).
Proof.
  unfold time_cmp.
  rewrite (Z.compare_antisym (hour a) (hour b)).
  rewrite (Z.compare_antisym (minute a) (minute b)).
  rewrite (Z.compare_antisym (second a) (second b)).
  rewrite (Z.compare_antisym (microsecond a) (microsecond b)).
  destruct (hour a ?= hour b); simpl; auto.
  destruct (minute a ?= minute b); simpl; auto.
  destruct (second a ?= second b); simpl; auto.
Qed.

Lemma time_cmp_eq (a b : time) : time_cmp a b = Eq -> a = b.
Proof.
  destruct a as [h1 m1 s1 u1], b as [h2 m2 s2 u2]. unfold time_cmp. simpl.
  destruct (Z.compare_spec h1 h2); try discriminate.
  destruct (Z.compare_spec m1 m2); try discriminate.
  destruct (Z.compare_spec s1 s2); try discriminate.
  destruct (Z.compare_spec u1 u2); try discriminate.
  intros _. congruence.
Qed.

Lemma time_geb_negb_ltb (a b : time) : time_geb a b = negb (time_ltb a b).
Proof.
  unfold time_geb, time_ltb. now destruct (time_cmp a b).
Qed.

Lemma time_leb_geb (a b : time) : time_leb a b = time_geb b a.
Proof.
  unfold time_leb, time_geb. rewrite (time_cmp_antisym a b).
  now destruct (time_cmp a b).
Qed.

Lemma valid_time_bounds (t : time) :
  valid_time t = true ->
  0 <= hour t <= 23 /\ 0 <= minute t <= 59 /\
  0 <= second t <= 59 /\ 0 <= microsecond t <= 999999.
Proof.
  unfold valid_time. rewrite !andb_true_iff, !Z.leb_le. lia.
Qed.

Lemma tod_us_range (t : time) :
  valid_time t = true -> 0 <= tod_us t < us_per_day.
Proof.
  intros H. apply valid_time_bounds in H.
  unfold tod_us, us_per_day, us_per_second. lia.
Qed.

(** On valid times the lexicographic order is the order of the
    microseconds since midnight. *)
Lemma time_cmp_tod_us (a b : time) :
  valid_time a = true -> valid_time b = true ->
  time_cmp a b = (tod_us a ?= tod_us b).
Proof.
  intros Ha Hb. apply valid_time_bounds in Ha, Hb.
  unfold time_cmp, tod_us, us_per_second.
  symmetry.
  destruct (Z.compare_spec (hour a) (hour b));
    [ destruct (Z.compare_spec (minute a) (minute b));
      [ destruct (Z.compare_spec (second a) (second b));
        [ destruct (Z.compare_spec (microsecond a) (microsecond b)) | | ] | | ] | | ];
    first [ apply Z.compare_eq_iff; lia
          | apply Z.compare_lt_iff; lia
          | apply Z.compare_gt_iff; lia ].
Qed.

Lemma time_ltb_tod_us (a b : time) :
  valid_time a = true -> valid_time b = true ->
  time_ltb a b = (tod_us a <? tod_us b).
Proof.
  intros Ha Hb. unfold time_ltb, Z.ltb. now rewrite time_cmp_tod_us.
Qed.

Lemma time_leb_tod_us (a b : time) :
  valid_time a = true -> valid_time b = true ->
  time_leb a b = (tod_us a <=? tod_us b).
Proof.
  intros Ha Hb. unfold time_leb, Z.leb. now rewrite time_cmp_tod_us.
Qed.

Lemma time_geb_tod_us (a b : time) :
  valid_time a = true -> valid_time b = true ->
  time_geb a b = (tod_us b <=? tod_us a).
Proof.
  intros Ha Hb. rewrite <- time_leb_geb. now apply time_leb_tod_us.
Qed.

Lemma datetime_cmp_to_us (a b : datetime) :
  valid_datetime a = true -> valid_datetime b = true ->
  datetime_cmp a b = (to_us a ?= to_us b).
Proof.
  unfold valid_datetime. intros Ha Hb.
  pose proof (tod_us_range _ Ha). pose proof (tod_us_range _ Hb).
  unfold datetime_cmp, to_us. rewrite (time_cmp_tod_us _ _ Ha Hb).
  unfold us_per_day, us_per_second in *.
  symmetry.
  destruct (Z.compare_spec (toordinal a) (toordinal b));
    [ destruct (Z.compare_spec (tod_us (timeof a)) (tod_us (timeof b))) | | ];
    first [ apply Z.compare_eq_iff; lia
          | apply Z.compare_lt_iff; lia
          | apply Z.compare_gt_iff; lia ].
Qed.

Lemma datetime_gtb_to_us (a b : datetime) :
  valid_datetime a = true -> valid_datetime b = true ->
  datetime_gtb a b = true -> to_us b < to_us a.
Proof.
  intros Ha Hb. unfold datetime_gtb. rewrite (datetime_cmp_to_us _ _ Ha Hb).
  destruct (Z.compare_spec (to_us a) (to_us b)); try discriminate. lia.
Qed.

Lemma datetime_cmp_eq (a b : datetime) : datetime_cmp a b = Eq -> a = b.
Proof.
  destruct a as [oa ta], b as [ob tb]. unfold datetime_cmp. simpl.
  destruct (Z.compare_spec oa ob); try discriminate.
  intros Ht. apply time_cmp_eq in Ht. congruence.
Qed.

Lemma to_us_inj (a b : datetime) :
  valid_datetime a = true -> valid_datetime b = true ->
  to_us a = to_us b -> a = b.
Proof.
  intros Ha Hb Heq. apply datetime_cmp_eq.
  rewrite (datetime_cmp_to_us _ _ Ha Hb). now apply Z.compare_eq_iff.
Qed.

(** ** Arithmetic of [datetime + timedelta] *)

Lemma add_valid (d : datetime) (td : timedelta) : valid_datetime (add d td) = true.
Proof.
  unfold valid_datetime, add, valid_time. simpl.
  change us_per_day with 86400000000. change us_per_second with 1000000.
  rewrite !andb_true_iff, !Z.leb_le.
  generalize (to_us d + td). intros T.
  Z.div_mod_to_equations. lia.
Qed.

Lemma to_us_add (d : datetime) (td : timedelta) : to_us (add d td) = to_us d + td.
Proof.
  unfold add. generalize (to_us d + td). intros T.
  unfold to_us, tod_us. simpl.
  change us_per_day with 86400000000. change us_per_second with 1000000.
  Z.div_mod_to_equations. lia.
Qed.

Lemma add_unique (d e : datetime) (td : timedelta) :
  valid_datetime e = true -> to_us e = to_us d + td -> add d td = e.
Proof.
  intros He Heq. apply to_us_inj; auto using add_valid.
  rewrite to_us_add. auto.
Qed.

(** Adding whole days to a valid datetime moves the ordinal only. *)
Lemma add_days (d : datetime) (n : Z) :
  valid_datetime d = true ->
  add d (timedelta_days n) = mkdatetime (toordinal d + n) (timeof d).
Proof.
  intros Hd. apply add_unique; auto.
  unfold to_us, timedelta_days. simpl. lia.
Qed.


(** ** Constructors that check their arguments *)

Lemma dtime_Return (h m : Z) (t : time) :
  dtime h m = Return t ->
  t = mktime h m 0 0 /\ 0 <= h <= 23 /\ 0 <= m <= 59.
Proof.
  unfold dtime.
  destruct ((0 <=? h) && (h <=? 23)) eqn:Hh; simpl; try discriminate.
  destruct ((0 <=? m) && (m <=? 59)) eqn:Hm; simpl; try discriminate.
  intros [= <-]. apply andb_true_iff in Hh, Hm.
  rewrite !Z.leb_le in Hh, Hm. auto.
Qed.

Lemma dtime_valid (h m : Z) (t : time) : dtime h m = Return t -> valid_time t = true.
Proof.
  intros H. apply dtime_Return in H. destruct H as (-> & Hh & Hm).
  unfold valid_time. simpl. rewrite !andb_true_iff, !Z.leb_le. lia.
Qed.

Lemma dtime_ok (h m : Z) :
  0 <= h <= 23 -> 0 <= m <= 59 -> dtime h m = Return (mktime h m 0 0).
Proof.
  intros Hh Hm. unfold dtime.
  replace ((0 <=? h) && (h <=? 23)) with true
    by (symmetry; rewrite andb_true_iff, !Z.leb_le; lia).
  replace ((0 <=? m) && (m <=? 59)) with true
    by (symmetry; rewrite andb_true_iff, !Z.leb_le; lia).
  reflexivity.
Qed.

Lemma replace_hm_ok (d : datetime) (h m : Z) :
  0 <= h <= 23 -> 0 <= m <= 59 ->
  replace_hm d h m = Return (mkdatetime (toordinal d) (mktime h m 0 0)).
Proof.
  intros Hh Hm. unfold replace_hm.
  replace ((0 <=? h) && (h <=? 23)) with true
    by (symmetry; rewrite andb_true_iff, !Z.leb_le; lia).
  replace ((0 <=? m) && (m <=? 59)) with true
    by (symmetry; rewrite andb_true_iff, !Z.leb_le; lia).
  reflexivity.
Qed.

(** ** The lock window ([LockerApp.check_lock]) *)

(** [check_lock] invokes the lock action exactly when its window
    decision is true. *)
Lemma check_lock_isInWindow (cfg : Config) (now : datetime) (os_error : option exn) :
  check_lock cfg now os_error =
  (b <- isInWindow cfg now ;;
   Return (if b then Log ScheduledLockTriggered :: lock_workstation os_error else [])).
Proof.
  unfold check_lock, isInWindow.
  destruct (negb (enabled cfg) || negb (mem (weekday now) (days cfg))); [reflexivity|].
  destruct (lock_time cfg) as [lh lm], (unlock_time cfg) as [uh um].
  destruct (dtime lh lm) as [lt|e]; simpl; [|reflexivity].
  destruct (dtime uh um) as [ut|e]; simpl; [|reflexivity].
  now destruct (in_window lt ut (timeof now)).
Qed.

(** Past the guard, with well-formed times, the decision is the
    window test on the parsed times. *)
Lemma isInWindow_past_guard (cfg : Config) (now : datetime) (lock_t unlock_t : time) :
  dtime (fst (lock_time cfg)) (snd (lock_time cfg)) = Return lock_t ->
  dtime (fst (unlock_time cfg)) (snd (unlock_time cfg)) = Return unlock_t ->
  enabled cfg = true -> mem (weekday now) (days cfg) = true ->
  isInWindow cfg now = Return (in_window lock_t unlock_t (timeof now)).
Proof.
  intros Hl Hu He Hd. unfold isInWindow. rewrite He, Hd. simpl.
  destruct (lock_time cfg) as [lh lm], (unlock_time cfg) as [uh um]. simpl in *.
  now rewrite Hl, Hu.
Qed.

Lemma isInWindow_guard (cfg : Config) (now : datetime) :
  enabled cfg = false \/ mem (weekday now) (days cfg) = false ->
  isInWindow cfg now = Return false.
Proof.
  intros H. unfold isInWindow.
  replace (negb (enabled cfg) || negb (mem (weekday now) (days cfg))) with true; [reflexivity|].
  symmetry. apply orb_true_iff. destruct H as [-> | ->]; auto.
Qed.

(** The window test in terms of microseconds since midnight. *)
Lemma in_window_tod_us (lock_t unlock_t now_t : time) :
  valid_time lock_t = true -> valid_time unlock_t = true -> valid_time now_t = true ->
  in_window lock_t unlock_t now_t =
  if tod_us lock_t <? tod_us unlock_t
  then (tod_us lock_t <=? tod_us now_t) && (tod_us now_t <? tod_us unlock_t)
  else (tod_us lock_t <=? tod_us now_t) || (tod_us now_t <? tod_us unlock_t).
Proof.
  intros Hl Hu Hn. unfold in_window.
  rewrite (time_ltb_tod_us _ _ Hl Hu), (time_leb_tod_us _ _ Hl Hn),
    (time_ltb_tod_us _ _ Hn Hu), (time_geb_tod_us _ _ Hn Hl).
  reflexivity.
Qed.

(** C1.  [isInWindow] is false whenever the schedule is disabled or
    the weekday of [now] is not an enabled day.  Otherwise, with
    [nowT], [lockT], [unlockT] the times of day in microseconds since
    midnight: when [lockT < unlockT] it is true iff
    [lockT <= nowT < unlockT], and when [lockT >= unlockT] it is true
    iff [nowT >= lockT] or [nowT < unlockT].  [check_lock] invokes the
    lock action exactly on a true decision. *)
Theorem isInWindow_window_rule (cfg : Config) (now : datetime) :
  (enabled cfg = false \/ mem (weekday now) (days cfg) = false ->
   isInWindow cfg now = Return false)
  /\
  (forall lock_t unlock_t : time,
      dtime (fst (lock_time cfg)) (snd (lock_time cfg)) = Return lock_t ->
      dtime (fst (unlock_time cfg)) (snd (unlock_time cfg)) = Return unlock_t ->
      valid_datetime now = true ->
      enabled cfg = true -> mem (weekday now) (days cfg) = true ->
      let nowT := tod_us (timeof now) in
      let lockT := tod_us lock_t in
      let unlockT := tod_us unlock_t in
      exists b : bool,
        isInWindow cfg now = Return b /\
        (lockT < unlockT -> (b = true <-> lockT <= nowT < unlockT)) /\
        (lockT >= unlockT -> (b = true <-> nowT >= lockT \/ nowT < unlockT)))
  /\
  (forall (os_error : option exn) (b : bool),
      isInWindow cfg now = Return b ->
      exists evs, check_lock cfg now os_error = Return evs /\
                  lock_calls evs = if b then 1%nat else 0%nat).
Proof.
  split; [apply isInWindow_guard|]. split.
  - intros lock_t unlock_t Hl Hu Hn He Hd nowT lockT unlockT.
    exists (in_window lock_t unlock_t (timeof now)). split.
    + now apply isInWindow_past_guard.
    + rewrite in_window_tod_us by eauto using dtime_valid.
      fold nowT lockT unlockT.
      destruct (Z.ltb_spec lockT unlockT).
      * split; [|lia]. intros _.
        rewrite andb_true_iff, Z.leb_le, Z.ltb_lt. tauto.
      * split; [lia|]. intros _.
        rewrite orb_true_iff, Z.leb_le, Z.ltb_lt. split; intros [?|?]; lia.
  - intros os_error b Hb. rewrite check_lock_isInWindow, Hb. simpl.
    eexists. split; [reflexivity|].
    destruct b; [|reflexivity]. unfold lock_workstation.
    now destruct os_error.
Qed.

Lemma isInWindow_window_rule_witness :
  exists b : bool,
    isInWindow DEFAULT_CONFIG (at_time monday 20 0) = Return b /\
    (tod_us (mktime 18 0 0 0) >= tod_us (mktime 6 0 0 0) ->
     (b = true <->
      tod_us (mktime 20 0 0 0) >= tod_us (mktime 18 0 0 0) \/
      tod_us (mktime 20 0 0 0) < tod_us (mktime 6 0 0 0))).
Proof.
  destruct (isInWindow_window_rule DEFAULT_CONFIG (at_time monday 20 0)) as (_ & H & _).
  destruct (H (mktime 18 0 0 0) (mktime 6 0 0 0)
              eq_refl eq_refl eq_refl eq_refl eq_refl) as (b & Hb & _ & Hw).
  exists b. split; [exact Hb | exact Hw].
Defined.

(** *** Boundaries of the window *)

Lemma in_window_at_lock (lock_t unlock_t : time) : in_window lock_t unlock_t lock_t = true.
Proof.
  unfold in_window. destruct (time_ltb lock_t unlock_t) eqn:Hlt.
  - unfold time_leb. now rewrite time_cmp_refl.
  - unfold time_geb. now rewrite time_cmp_refl.
Qed.

Lemma in_window_at_unlock (lock_t unlock_t : time) :
  in_window lock_t unlock_t unlock_t = true <-> lock_t = unlock_t.
Proof.
  unfold in_window, time_ltb, time_leb, time_geb.
  rewrite (time_cmp_antisym lock_t unlock_t), (time_cmp_refl unlock_t).
  destruct (time_cmp lock_t unlock_t) eqn:Hc; simpl.
  - split; auto. intros _. now apply time_cmp_eq.
  - split; [discriminate|].
    intros ->. rewrite time_cmp_refl in Hc. discriminate.
  - split; [discriminate|].
    intros ->. rewrite time_cmp_refl in Hc. discriminate.
Qed.

Lemma in_window_whole_day (t now_t : time) : in_window t t now_t = true.
Proof.
  unfold in_window, time_ltb at 1. rewrite time_cmp_refl.
  rewrite time_geb_negb_ltb. now destruct (time_ltb now_t t).
Qed.

(** C2, as stated, fails: with lock and unlock both at 12:00 the
    window is active at 12:00, the unlock time, on an enabled day. *)
Lemma boundary_at_unlock_counterexample :
  enabled noon_config = true /\
  mem (weekday (at_time monday 12 0)) (days noon_config) = true /\
  dtime (fst (unlock_time noon_config)) (snd (unlock_time noon_config))
  = Return (timeof (at_time monday 12 0)) /\
  isInWindow noon_config (at_time monday 12 0) = Return true /\
  isInWindow noon_config (at_time monday 12 0) <> Return false.
Proof.
  repeat split; discriminate.
Qed.

(** C2, amended.  On an enabled day of an enabled schedule:
    at the lock time the window is active, wrapping or not; at the
    unlock time it is not active provided the lock and unlock times
    differ; with equal lock and unlock times it is active there too. *)
Theorem isInWindow_boundaries (cfg : Config) (now : datetime) (lock_t unlock_t : time) :
  dtime (fst (lock_time cfg)) (snd (lock_time cfg)) = Return lock_t ->
  dtime (fst (unlock_time cfg)) (snd (unlock_time cfg)) = Return unlock_t ->
  enabled cfg = true -> mem (weekday now) (days cfg) = true ->
  (timeof now = lock_t -> isInWindow cfg now = Return true) /\
  (timeof now = unlock_t -> lock_t <> unlock_t -> isInWindow cfg now = Return false) /\
  (timeof now = unlock_t -> lock_t = unlock_t -> isInWindow cfg now = Return true).
Proof.
  intros Hl Hu He Hd.
  rewrite (isInWindow_past_guard cfg now lock_t unlock_t Hl Hu He Hd).
  repeat split.
  - intros ->. now rewrite in_window_at_lock.
  - intros -> Hne. f_equal.
    destruct (in_window lock_t unlock_t unlock_t) eqn:Hw; auto.
    now apply in_window_at_unlock in Hw.
  - intros -> Heq. f_equal. now apply in_window_at_unlock.
Qed.

Lemma isInWindow_boundaries_witness :
  isInWindow DEFAULT_CONFIG (at_time monday 18 0) = Return true /\
  (mktime 18 0 0 0 <> mktime 6 0 0 0 ->
   isInWindow DEFAULT_CONFIG (at_time monday 6 0) = Return false).
Proof.
  split.
  - destruct (isInWindow_boundaries DEFAULT_CONFIG (at_time monday 18 0)
                (mktime 18 0 0 0) (mktime 6 0 0 0) eq_refl eq_refl eq_refl eq_refl)
      as (Hlock & _ & _).
    apply Hlock. reflexivity.
  - destruct (isInWindow_boundaries DEFAULT_CONFIG (at_time monday 6 0)
                (mktime 18 0 0 0) (mktime 6 0 0 0) eq_refl eq_refl eq_refl eq_refl)
      as (_ & Hunlock & _).
    apply Hunlock. reflexivity.
Defined.

(** C9.  When the lock time equals the unlock time, the window of an
    enabled schedule is active at every time of day of every enabled
    day, the unlock time itself included. *)
Theorem isInWindow_equal_times_whole_day (cfg : Config) (now : datetime) (t : time) :
  dtime (fst (lock_time cfg)) (snd (lock_time cfg)) = Return t ->
  unlock_time cfg = lock_time cfg ->
  enabled cfg = true -> mem (weekday now) (days cfg) = true ->
  isInWindow cfg now = Return true.
Proof.
  intros Hl Heq He Hd.
  rewrite (isInWindow_past_guard cfg now t t); auto.
  - now rewrite in_window_whole_day.
  - now rewrite Heq.
Qed.

Lemma isInWindow_equal_times_whole_day_witness :
  isInWindow noon_config (mkdatetime tuesday (mktime 3 45 10 250000)) = Return true.
Proof.
  apply (isInWindow_equal_times_whole_day
           noon_config
           (mkdatetime tuesday (mktime 3 45 10 250000))
           (mktime 12 0 0 0)); reflexivity.
Defined.

(** C10.  Day membership is tested on the calendar day of [now]
    alone.  For a wrapping schedule and an instant before the unlock
    time whose weekday is not enabled, the window is not active,
    whatever the enabled days are otherwise; at the same time of day
    on an enabled day it is active. *)
Theorem isInWindow_cut_at_midnight (cfg : Config) (now : datetime) (lock_t unlock_t : time) :
  dtime (fst (lock_time cfg)) (snd (lock_time cfg)) = Return lock_t ->
  dtime (fst (unlock_time cfg)) (snd (unlock_time cfg)) = Return unlock_t ->
  time_geb lock_t unlock_t = true ->
  time_ltb (timeof now) unlock_t = true ->
  mem (weekday now) (days cfg) = false ->
  isInWindow cfg now = Return false /\
  (forall now' : datetime,
      timeof now' = timeof now ->
      enabled cfg = true -> mem (weekday now') (days cfg) = true ->
      isInWindow cfg now' = Return true).
Proof.
  intros Hl Hu Hwrap Hbefore Hday. split.
  - apply isInWindow_guard. now right.
  - intros now' Ht He Hd.
    rewrite (isInWindow_past_guard cfg now' lock_t unlock_t Hl Hu He Hd).
    f_equal. unfold in_window.
    rewrite time_geb_negb_ltb in Hwrap. apply negb_true_iff in Hwrap.
    rewrite Hwrap, Ht, Hbefore. apply orb_true_r.
Qed.

Lemma isInWindow_cut_at_midnight_witness :
  mem (weekday (at_time monday 23 59)) (days monday_only) = true /\
  isInWindow monday_only (at_time monday 23 59) = Return true /\
  isInWindow monday_only (at_time tuesday 0 0) = Return false /\
  isInWindow monday_only (at_time (monday + 7) 0 0) = Return true.
Proof.
  destruct (isInWindow_cut_at_midnight monday_only (at_time tuesday 0 0)
              (mktime 18 0 0 0) (mktime 6 0 0 0)
              eq_refl eq_refl eq_refl eq_refl eq_refl) as [Hcut Hon].
  split; [reflexivity|]. split; [reflexivity|]. split.
  - exact Hcut.
  - apply Hon; reflexivity.
Defined.

(** ** The poll loop ([check_timer] driving [check_lock]) *)

Lemma isInWindow_total (cfg : Config) (now : datetime) (lock_t unlock_t : time) :
  dtime (fst (lock_time cfg)) (snd (lock_time cfg)) = Return lock_t ->
  dtime (fst (unlock_time cfg)) (snd (unlock_time cfg)) = Return unlock_t ->
  isInWindow cfg now = Return (in_window_at cfg now).
Proof.
  intros Hl Hu. unfold in_window_at, isInWindow.
  destruct (negb (enabled cfg) || negb (mem (weekday now) (days cfg))); [reflexivity|].
  destruct (lock_time cfg) as [lh lm], (unlock_time cfg) as [uh um]. simpl in *.
  now rewrite Hl, Hu.
Qed.

Lemma lock_calls_app (a b : list event) :
  lock_calls (a ++ b) = (lock_calls a + lock_calls b)%nat.
Proof.
  unfold lock_calls. now rewrite filter_app, length_app.
Qed.

Lemma lock_calls_lock_workstation (os_error : option exn) :
  lock_calls (Log ScheduledLockTriggered :: lock_workstation os_error) = 1%nat.
Proof.
  now destruct os_error.
Qed.

(** C3, as stated, fails: two consecutive ticks inside the window are
    one entry into the window, and the lock action is invoked at
    both. *)
Lemma lock_once_per_entry_counterexample :
  exists evs : list event,
    run_ticks DEFAULT_CONFIG evening_ticks = Return evs /\
    window_entries DEFAULT_CONFIG false evening_ticks = 1%nat /\
    lock_calls evs = 2%nat /\
    lock_calls evs <> window_entries DEFAULT_CONFIG false evening_ticks.
Proof.
  eexists. split; [reflexivity|]. repeat split. discriminate.
Qed.

(** C3, amended.  Over every sequence of poll ticks of a schedule
    with well-formed times, the controller invokes the lock action
    once at every tick at which the window is active, whether or not
    it was active at the tick before, and at no other tick: the lock
    invocations number the ticks inside the window. *)
Theorem lock_at_every_tick_in_window
        (cfg : Config) (ticks : list (datetime * option exn)) (lock_t unlock_t : time) :
  dtime (fst (lock_time cfg)) (snd (lock_time cfg)) = Return lock_t ->
  dtime (fst (unlock_time cfg)) (snd (unlock_time cfg)) = Return unlock_t ->
  exists evs : list event,
    run_ticks cfg ticks = Return evs /\
    lock_calls evs = ticks_in_window cfg ticks.
Proof.
  intros Hl Hu. induction ticks as [|[now os_error] rest IH].
  - exists []. split; reflexivity.
  - destruct IH as (more & Hrun & Hcount).
    simpl. rewrite check_lock_isInWindow.
    rewrite (isInWindow_total cfg now lock_t unlock_t Hl Hu). simpl.
    rewrite Hrun. simpl. eexists. split; [reflexivity|].
    rewrite lock_calls_app, Hcount. unfold ticks_in_window.
    cbn [filter fst]. destruct (in_window_at cfg now).
    + now rewrite lock_calls_lock_workstation.
    + reflexivity.
Qed.

Lemma lock_at_every_tick_in_window_witness :
  exists evs : list event,
    run_ticks DEFAULT_CONFIG lock_time_ticks = Return evs /\
    lock_calls evs = 2%nat.
Proof.
  exact (lock_at_every_tick_in_window DEFAULT_CONFIG lock_time_ticks
           (mktime 18 0 0 0) (mktime 6 0 0 0) eq_refl eq_refl).
Defined.

(** ** The countdown ([SetupDialog.update_countdown]) *)

Lemma weekday_range (d : datetime) : 0 <= weekday d < 7.
Proof.
  unfold weekday. apply Z.mod_pos_bound. lia.
Qed.

(** Within the seven days scanned, only today falls on today's weekday. *)
Lemma same_weekday_today (now : datetime) (i : Z) :
  0 <= i < 7 -> ((weekday now + i) mod 7 =? weekday now) = (i =? 0).
Proof.
  intros Hi. pose proof (weekday_range now) as Hw.
  destruct (Z.eqb_spec i 0) as [-> | Hne].
  - rewrite Z.add_0_r, Z.mod_small by lia. apply Z.eqb_refl.
  - apply Z.eqb_neq. intros Heq.
    destruct (Z_lt_le_dec (weekday now + i) 7).
    + rewrite Z.mod_small in Heq by lia. lia.
    + replace (weekday now + i) with (weekday now + i - 7 + 1 * 7) in Heq by lia.
      rewrite Z.mod_add, Z.mod_small in Heq by lia. lia.
Qed.

Lemma candidate_eq (lh lm uh um : Z) (now : datetime) (lock_t unlock_t : time) (i : Z) :
  valid_datetime now = true ->
  dtime lh lm = Return lock_t -> dtime uh um = Return unlock_t ->
  candidate lh lm uh um now lock_t unlock_t (in_window lock_t unlock_t (timeof now)) i
  = Return (candidate_at lock_t unlock_t now i).
Proof.
  intros Hn Hl Hu.
  apply dtime_Return in Hl, Hu.
  destruct Hl as (Hl & Hlh & Hlm), Hu as (Hu & Huh & Hum).
  unfold candidate, candidate_at, advance, target.
  rewrite (add_days now i Hn).
  destruct (in_window lock_t unlock_t (timeof now)); cbn [negb andb].
  - rewrite (replace_hm_ok _ uh um Huh Hum). cbn [bind toordinal]. rewrite <- Hu.
    destruct (time_geb lock_t unlock_t); cbn [andb];
      [ destruct ((weekday now + i) mod 7 =? weekday now); cbn [andb];
        [ destruct (time_geb (timeof now) unlock_t) | ] | ].
    + rewrite add_days by (subst unlock_t; unfold valid_datetime, valid_time; simpl;
                           rewrite !andb_true_iff, !Z.leb_le; lia).
      reflexivity.
    + now rewrite Z.add_0_r.
    + now rewrite Z.add_0_r.
    + now rewrite Z.add_0_r.
  - rewrite (replace_hm_ok _ lh lm Hlh Hlm). cbn [bind toordinal]. rewrite <- Hl.
    now rewrite Z.add_0_r.
Qed.

Lemma scan_find (lh lm uh um : Z) (days_ : list Z) (now : datetime)
      (lock_t unlock_t : time) (idxs : list Z) :
  valid_datetime now = true ->
  dtime lh lm = Return lock_t -> dtime uh um = Return unlock_t ->
  scan lh lm uh um days_ now lock_t unlock_t (in_window lock_t unlock_t (timeof now)) idxs
  = Return (option_map (candidate_at lock_t unlock_t now)
                       (find (qualifies lock_t unlock_t days_ now) idxs)).
Proof.
  intros Hn Hl Hu. induction idxs as [|i rest IH]; [reflexivity|].
  cbn [scan find]. rewrite (candidate_eq lh lm uh um now lock_t unlock_t i Hn Hl Hu).
  unfold qualifies at 1.
  destruct (mem ((weekday now + i) mod 7) days_); cbn [negb andb bind]; [|exact IH].
  destruct (datetime_gtb (candidate_at lock_t unlock_t now i) now); [reflexivity|exact IH].
Qed.

(** Past the guard, the countdown is the first qualifying candidate
    of the seven days scanned. *)
Lemma nextTransition_find (lock unlock : Z * Z) (days_ : list Z) (now : datetime)
      (lock_t unlock_t : time) :
  valid_datetime now = true ->
  dtime (fst lock) (snd lock) = Return lock_t ->
  dtime (fst unlock) (snd unlock) = Return unlock_t ->
  mem (weekday now) days_ = true ->
  nextTransition lock unlock days_ true now
  = Return (option_map (candidate_at lock_t unlock_t now)
                       (find (qualifies lock_t unlock_t days_ now) range7)).
Proof.
  intros Hn Hl Hu Hd. destruct lock as [lh lm], unlock as [uh um]. simpl in Hl, Hu.
  unfold nextTransition. rewrite Hd. cbn [negb orb]. rewrite Hl, Hu. cbn [bind].
  now apply scan_find.
Qed.

Lemma nextTransition_guard (lock unlock : Z * Z) (days_ : list Z) (enabled_ : bool)
      (now : datetime) :
  enabled_ = false \/ mem (weekday now) days_ = false ->
  nextTransition lock unlock days_ enabled_ now = Return None.
Proof.
  intros H. destruct lock as [lh lm], unlock as [uh um]. unfold nextTransition.
  replace (negb enabled_ || negb (mem (weekday now) days_)) with true; [reflexivity|].
  symmetry. apply orb_true_iff. destruct H as [-> | ->]; auto.
Qed.

(** The first hit of a test over [range(7)]. *)
Lemma find_range7_first (P : Z -> bool) (i : Z) :
  find P range7 = Some i ->
  0 <= i < 7 /\ P i = true /\ forall j, 0 <= j < i -> P j = false.
Proof.
  unfold range7. cbn [find].
  destruct (P 0) eqn:H0; [intros [= <-]; repeat split; auto; lia|].
  destruct (P 1) eqn:H1;
    [intros [= <-]; repeat split; auto; try lia;
     intros j Hj; assert (j = 0) as -> by lia; auto|].
  destruct (P 2) eqn:H2;
    [intros [= <-]; repeat split; auto; try lia;
     intros j Hj; assert (j = 0 \/ j = 1) as [-> | ->] by lia; auto|].
  destruct (P 3) eqn:H3;
    [intros [= <-]; repeat split; auto; try lia;
     intros j Hj; assert (j = 0 \/ j = 1 \/ j = 2) as [-> | [-> | ->]] by lia; auto|].
  destruct (P 4) eqn:H4;
    [intros [= <-]; repeat split; auto; try lia;
     intros j Hj;
     assert (j = 0 \/ j = 1 \/ j = 2 \/ j = 3) as [-> | [-> | [-> | ->]]] by lia; auto|].
  destruct (P 5) eqn:H5;
    [intros [= <-]; repeat split; auto; try lia;
     intros j Hj;
     assert (j = 0 \/ j = 1 \/ j = 2 \/ j = 3 \/ j = 4)
       as [-> | [-> | [-> | [-> | ->]]]] by lia; auto|].
  destruct (P 6) eqn:H6;
    [intros [= <-]; repeat split; auto; try lia;
     intros j Hj;
     assert (j = 0 \/ j = 1 \/ j = 2 \/ j = 3 \/ j = 4 \/ j = 5)
       as [-> | [-> | [-> | [-> | [-> | ->]]]]] by lia; auto|].
  discriminate.
Qed.

Lemma nextTransition_Some_inv (lock unlock : Z * Z) (days_ : list Z) (enabled_ : bool)
      (now r : datetime) :
  nextTransition lock unlock days_ enabled_ now = Return (Some r) ->
  enabled_ = true /\ mem (weekday now) days_ = true /\
  exists lock_t unlock_t,
    dtime (fst lock) (snd lock) = Return lock_t /\
    dtime (fst unlock) (snd unlock) = Return unlock_t.
Proof.
  destruct lock as [lh lm], unlock as [uh um]. unfold nextTransition. simpl.
  destruct enabled_; [|discriminate].
  destruct (mem (weekday now) days_); [|discriminate]. simpl.
  destruct (dtime lh lm) as [lock_t|e]; [|discriminate].
  destruct (dtime uh um) as [unlock_t|e]; [|discriminate].
  intros _. repeat split. now exists lock_t, unlock_t.
Qed.

Lemma candidate_at_valid (lh lm uh um : Z) (lock_t unlock_t : time) (now : datetime) (i : Z) :
  dtime lh lm = Return lock_t -> dtime uh um = Return unlock_t ->
  valid_datetime (candidate_at lock_t unlock_t now i) = true.
Proof.
  intros Hl Hu. unfold valid_datetime, candidate_at, target. cbn [timeof].
  destruct (in_window lock_t unlock_t (timeof now)); eauto using dtime_valid.
Qed.

Lemma datetime_gtb_later_day (o1 o2 : Z) (t1 t2 : time) :
  o2 < o1 -> datetime_gtb (mkdatetime o1 t1) (mkdatetime o2 t2) = true.
Proof.
  intros H. unfold datetime_gtb, datetime_cmp. cbn [toordinal timeof].
  apply Z.compare_gt_iff in H. now rewrite H.
Qed.

Lemma datetime_gtb_same_day (o : Z) (t1 t2 : time) :
  datetime_gtb (mkdatetime o t1) (mkdatetime o t2) = time_ltb t2 t1.
Proof.
  unfold datetime_gtb, datetime_cmp, time_ltb. cbn [toordinal timeof].
  rewrite Z.compare_refl, (time_cmp_antisym t1 t2).
  now destruct (time_cmp t1 t2).
Qed.

Lemma find_range7_none (P : Z -> bool) :
  find P range7 = None <-> forall i, 0 <= i < 7 -> P i = false.
Proof.
  split.
  - intros Hnone i Hi. apply (find_none P range7 Hnone).
    unfold range7. cbn [In].
    assert (i = 0 \/ i = 1 \/ i = 2 \/ i = 3 \/ i = 4 \/ i = 5 \/ i = 6) by lia.
    intuition auto.
  - intros H. unfold range7. cbn [find].
    now rewrite !H by lia.
Qed.

(** A test over [range(7)] that holds at [i] and at no earlier index
    is first found at [i]. *)
Lemma find_range7_hit (P : Z -> bool) (i : Z) :
  0 <= i < 7 -> P i = true -> (forall j, 0 <= j < i -> P j = false) ->
  find P range7 = Some i.
Proof.
  intros Hi Hp Hfirst. unfold range7. cbn [find].
  assert (i = 0 \/ i = 1 \/ i = 2 \/ i = 3 \/ i = 4 \/ i = 5 \/ i = 6) as Hc by lia.
  destruct Hc as [-> | [-> | [-> | [-> | [-> | [-> | ->]]]]]];
    repeat match goal with
           | |- context [P ?j] => first [rewrite (Hfirst j) by lia | rewrite Hp]
           end;
    reflexivity.
Qed.

Lemma advance_today_only (lock_t unlock_t : time) (now : datetime) (i : Z) :
  0 <= i < 7 -> advance lock_t unlock_t now i = true -> i = 0.
Proof.
  intros Hi. unfold advance. rewrite (same_weekday_today now i Hi).
  rewrite !andb_true_iff, Z.eqb_eq. tauto.
Qed.

Lemma in_date_range_between (lo hi x : Z) :
  in_date_range lo = true -> in_date_range hi = true -> lo <= x <= hi ->
  in_date_range x = true.
Proof.
  unfold in_date_range. rewrite !andb_true_iff, !Z.ltb_lt, !Z.leb_le. lia.
Qed.

(** Within the date range the sums that the scan forms are sums that
    Python returns: the day [i] ahead, and the advanced candidate. *)
Lemma scan_sums_representable (lock_t unlock_t : time) (now base : datetime) (i h m : Z) :
  valid_datetime now = true ->
  in_date_range (toordinal now) = true ->
  in_date_range (toordinal now + 6) = true ->
  0 <= i < 7 ->
  replace_hm (add now (timedelta_days i)) h m = Return base ->
  add_checked now (timedelta_days i) = Some (add now (timedelta_days i)) /\
  (advance lock_t unlock_t now i = true ->
   add_checked base (timedelta_days 1) = Some (add base (timedelta_days 1))).
Proof.
  intros Hn Hlo Hhi Hi Hbase. unfold add_checked.
  rewrite (add_days now i Hn) in *. cbn [toordinal]. split.
  - now rewrite (in_date_range_between _ _ (toordinal now + i) Hlo Hhi) by lia.
  - intros Hadv. apply advance_today_only in Hadv; [|exact Hi]. subst i.
    unfold replace_hm in Hbase.
    destruct (negb ((0 <=? h) && (h <=? 23))) eqn:Hh; [discriminate|].
    destruct (negb ((0 <=? m) && (m <=? 59))) eqn:Hm; [discriminate|].
    injection Hbase as <-. cbn [toordinal] in *.
    assert (Hvb : valid_datetime (mkdatetime (toordinal now + 0) (mktime h m 0 0)) = true).
    { apply negb_false_iff in Hh, Hm. apply andb_true_iff in Hh, Hm.
      rewrite !Z.leb_le in Hh, Hm.
      unfold valid_datetime, valid_time. cbn [timeof hour minute second microsecond].
      rewrite !andb_true_iff, !Z.leb_le. lia. }
    rewrite (add_days _ 1 Hvb). cbn [toordinal].
    now rewrite (in_date_range_between _ _ (toordinal now + 0 + 1) Hlo Hhi) by lia.
Qed.

(** C4.  [nextTransition] scans the seven days from today over the
    enabled days and returns the candidate of the first of them whose
    candidate is after [now]; it reports no transition exactly when
    no enabled day has one.  The candidate's time of day is the
    unlock time inside the window and the lock time outside it, and
    its day is advanced by one exactly when [now] is inside the
    window, the window wraps, the candidate day is today and the time
    of day of [now] is not before the unlock time.  Outside the
    window today's candidate is after [now] while the lock time is
    ahead, and the candidate of every later day is.  The instants are
    dates that [datetime] can represent, the six days after [now]
    included.  For the schedule 18:00 to 06:00 on all seven days: on
    Monday at 20:00 the window is active and the next transition is
    Tuesday 06:00; on Monday at 05:59 the window is active and the
    next transition is Monday 06:00; on Monday at 12:00 the window is
    not active and the next transition is Monday 18:00.  For the
    schedule 09:00 to 17:00 on Mondays and Thursdays, on Monday at
    18:00 the next transition is Thursday 09:00. *)
Theorem nextTransition_scan_rule :
  (forall (lock unlock : Z * Z) (days_ : list Z) (enabled_ : bool)
          (now r : datetime) (lock_t unlock_t : time),
      valid_datetime now = true ->
      dtime (fst lock) (snd lock) = Return lock_t ->
      dtime (fst unlock) (snd unlock) = Return unlock_t ->
      nextTransition lock unlock days_ enabled_ now = Return (Some r) ->
      let inw := in_window lock_t unlock_t (timeof now) in
      exists i : Z,
        0 <= i < 7 /\
        mem ((weekday now + i) mod 7) days_ = true /\
        timeof r = (if inw then unlock_t else lock_t) /\
        toordinal r = toordinal now + i + (if advance lock_t unlock_t now i then 1 else 0) /\
        (advance lock_t unlock_t now i = true <->
         inw = true /\ time_geb lock_t unlock_t = true /\ i = 0 /\
         time_geb (timeof now) unlock_t = true) /\
        datetime_gtb r now = true /\
        (forall j : Z, 0 <= j < i ->
                       mem ((weekday now + j) mod 7) days_ = true ->
                       datetime_gtb (candidate_at lock_t unlock_t now j) now = false))
  /\
  (forall (lock unlock : Z * Z) (days_ : list Z) (now : datetime) (lock_t unlock_t : time),
      valid_datetime now = true ->
      in_date_range (toordinal now) = true ->
      in_date_range (toordinal now + 6) = true ->
      dtime (fst lock) (snd lock) = Return lock_t ->
      dtime (fst unlock) (snd unlock) = Return unlock_t ->
      mem (weekday now) days_ = true ->
      let inw := in_window lock_t unlock_t (timeof now) in
      let after := fun i : Z => datetime_gtb (candidate_at lock_t unlock_t now i) now in
      (forall i : Z,
          0 <= i < 7 ->
          mem ((weekday now + i) mod 7) days_ = true -> after i = true ->
          (forall j : Z, 0 <= j < i ->
                         mem ((weekday now + j) mod 7) days_ = true -> after j = false) ->
          exists r : datetime,
            nextTransition lock unlock days_ true now = Return (Some r) /\
            timeof r = (if inw then unlock_t else lock_t) /\
            toordinal r
            = toordinal now + i + (if advance lock_t unlock_t now i then 1 else 0))
      /\
      ((forall i : Z, 0 <= i < 7 ->
                      mem ((weekday now + i) mod 7) days_ = true -> after i = false) ->
       nextTransition lock unlock days_ true now = Return None)
      /\
      (inw = false ->
       after 0 = time_ltb (timeof now) lock_t /\
       forall i : Z, 1 <= i < 7 -> after i = true))
  /\
  (isInWindow DEFAULT_CONFIG (at_time monday 20 0) = Return true /\
   nextTransition (18, 0) (6, 0) all_days true (at_time monday 20 0)
   = Return (Some (at_time tuesday 6 0)))
  /\
  (isInWindow DEFAULT_CONFIG (at_time monday 5 59) = Return true /\
   nextTransition (18, 0) (6, 0) all_days true (at_time monday 5 59)
   = Return (Some (at_time monday 6 0)))
  /\
  (isInWindow DEFAULT_CONFIG (at_time monday 12 0) = Return false /\
   nextTransition (18, 0) (6, 0) all_days true (at_time monday 12 0)
   = Return (Some (at_time monday 18 0)))
  /\
  nextTransition (9, 0) (17, 0) [0; 3] true (at_time monday 18 0)
  = Return (Some (at_time (monday + 3) 9 0)).
Proof.
  split; [|split; [|split; [|split; [|split]]]];
    [ | | split; reflexivity | split; reflexivity | split; reflexivity | reflexivity ].
  - intros lock unlock days_ enabled_ now r lock_t unlock_t Hn Hl Hu Hnext inw.
    destruct (nextTransition_Some_inv _ _ _ _ _ _ Hnext) as (-> & Hd & _).
    rewrite (nextTransition_find lock unlock days_ now lock_t unlock_t Hn Hl Hu Hd) in Hnext.
    destruct (find (qualifies lock_t unlock_t days_ now) range7) as [i|] eqn:Hfind;
      [|discriminate].
    injection Hnext as <-.
    apply find_range7_first in Hfind. destruct Hfind as (Hi & Hq & Hfirst).
    unfold qualifies in Hq. apply andb_true_iff in Hq. destruct Hq as [Hmem Hgt].
    exists i.
    split; [exact Hi|]. split; [exact Hmem|]. split; [reflexivity|].
    split; [reflexivity|]. split; [|split; [exact Hgt|]].
    + unfold advance. rewrite (same_weekday_today now i Hi).
      rewrite !andb_true_iff, Z.eqb_eq. fold inw. tauto.
    + intros j Hj Hmj. specialize (Hfirst j Hj). unfold qualifies in Hfirst.
      rewrite Hmj in Hfirst. exact Hfirst.
  - intros lock unlock days_ now lock_t unlock_t Hn _ _ Hl Hu Hd inw after.
    rewrite (nextTransition_find lock unlock days_ now lock_t unlock_t Hn Hl Hu Hd).
    split; [|split].
    + intros i Hi Hmem Hafter Hfirst.
      assert (Hfind : find (qualifies lock_t unlock_t days_ now) range7 = Some i).
      { apply find_range7_hit; [exact Hi | |].
        - unfold qualifies. fold (after i). now rewrite Hmem, Hafter.
        - intros j Hj. unfold qualifies. fold (after j).
          destruct (mem ((weekday now + j) mod 7) days_) eqn:Hmj; [|reflexivity].
          cbn [andb]. now apply Hfirst. }
      rewrite Hfind. cbn [option_map].
      exists (candidate_at lock_t unlock_t now i).
      split; [reflexivity|]. split; reflexivity.
    + intros Hnone.
      assert (Hfind : find (qualifies lock_t unlock_t days_ now) range7 = None).
      { apply find_range7_none. intros i Hi. unfold qualifies. fold (after i).
        destruct (mem ((weekday now + i) mod 7) days_) eqn:Hmi; [|reflexivity].
        cbn [andb]. now apply Hnone. }
      now rewrite Hfind.
    + intros Hout. unfold after, candidate_at, advance, target. fold inw. rewrite Hout.
      cbn [andb]. destruct now as [o t]. cbn [toordinal timeof]. split.
      * rewrite !Z.add_0_r. apply datetime_gtb_same_day.
      * intros i Hi. apply datetime_gtb_later_day. lia.
Qed.

Lemma nextTransition_scan_rule_witness :
  exists r : datetime,
    nextTransition (9, 0) (17, 0) [0; 3] true (at_time monday 18 0) = Return (Some r) /\
    timeof r = mktime 9 0 0 0 /\
    toordinal r = monday + 3.
Proof.
  destruct nextTransition_scan_rule as (_ & Hrule & _).
  destruct (Hrule (9, 0) (17, 0) [0; 3] (at_time monday 18 0)
                  (mktime 9 0 0 0) (mktime 17 0 0 0)
                  eq_refl eq_refl eq_refl eq_refl eq_refl eq_refl) as (Hhit & _ & _).
  destruct (Hhit 3) as (r & Hr & Ht & Ho).
  - lia.
  - reflexivity.
  - reflexivity.
  - intros j Hj Hm.
    assert (j = 0 \/ j = 1 \/ j = 2) as Hc by lia.
    destruct Hc as [-> | [-> | ->]]; [reflexivity | discriminate Hm | discriminate Hm].
  - exists r. split; [exact Hr|]. split; [exact Ht|exact Ho].
Defined.

(** C5, as stated, fails.  Weekdays are numbered from Monday = 0, so
    the days 1..5 are Tuesday to Saturday: on Saturday at 10:00 the
    window of the schedule 09:00 to 17:00 is active and the next
    transition is Saturday 17:00.  With Monday to Friday enabled
    (days 0..4) the countdown on Saturday reports no upcoming
    transition instead of Monday 09:00. *)
Lemma saturday_scan_counterexample :
  weekday (at_time saturday 10 0) = 5 /\
  isInWindow (mkConfig "" (9, 0) (17, 0) [1; 2; 3; 4; 5] true) (at_time saturday 10 0)
  = Return true /\
  nextTransition (9, 0) (17, 0) [1; 2; 3; 4; 5] true (at_time saturday 10 0)
  = Return (Some (at_time saturday 17 0)) /\
  nextTransition (9, 0) (17, 0) [1; 2; 3; 4; 5] true (at_time saturday 10 0)
  <> Return (Some (at_time (monday + 7) 9 0)) /\
  nextTransition (9, 0) (17, 0) [0; 1; 2; 3; 4] true (at_time saturday 10 0)
  = Return None /\
  nextTransition (9, 0) (17, 0) [0; 1; 2; 3; 4] true (at_time saturday 10 0)
  <> Return (Some (at_time (monday + 7) 9 0)).
Proof.
  repeat split; discriminate.
Qed.

(** C5, amended.  Whenever the weekday of [now] is not an enabled
    day, [nextTransition] reports no upcoming transition, without
    scanning forward.  Weekdays are numbered from Monday = 0: for the
    schedule 09:00 to 17:00 with Monday to Friday enabled (days
    0..4), on Saturday at 10:00 the window is not active and no
    upcoming transition is reported; with the days 1..5 (Tuesday to
    Saturday) the window is active on Saturday at 10:00 and the next
    transition is Saturday 17:00. *)
Theorem nextTransition_disabled_today :
  (forall (lock unlock : Z * Z) (days_ : list Z) (enabled_ : bool) (now : datetime),
      mem (weekday now) days_ = false ->
      nextTransition lock unlock days_ enabled_ now = Return None)
  /\
  (isInWindow (mkConfig "" (9, 0) (17, 0) [0; 1; 2; 3; 4] true) (at_time saturday 10 0)
   = Return false /\
   nextTransition (9, 0) (17, 0) [0; 1; 2; 3; 4] true (at_time saturday 10 0) = Return None)
  /\
  (isInWindow (mkConfig "" (9, 0) (17, 0) [1; 2; 3; 4; 5] true) (at_time saturday 10 0)
   = Return true /\
   nextTransition (9, 0) (17, 0) [1; 2; 3; 4; 5] true (at_time saturday 10 0)
   = Return (Some (at_time saturday 17 0))).
Proof.
  split; [|split; split; reflexivity].
  intros lock unlock days_ enabled_ now Hd. apply nextTransition_guard. now right.
Qed.

Lemma nextTransition_disabled_today_witness :
  mem (weekday (at_time saturday 10 0)) [0; 1; 2; 3; 4] = false /\
  nextTransition (9, 0) (17, 0) [0; 1; 2; 3; 4] true (at_time saturday 10 0) = Return None.
Proof.
  split; [reflexivity|].
  destruct nextTransition_disabled_today as (Hrule & _).
  apply Hrule. reflexivity.
Defined.

Lemma scan_after_now (lh lm uh um : Z) (days_ : list Z) (now : datetime)
      (lock_t unlock_t : time) (in_w : bool) (idxs : list Z) (r : datetime) :
  scan lh lm uh um days_ now lock_t unlock_t in_w idxs = Return (Some r) ->
  datetime_gtb r now = true.
Proof.
  induction idxs as [|i rest IH]; [discriminate|].
  cbn [scan].
  destruct (negb (mem ((weekday now + i) mod 7) days_)); [exact IH|].
  destruct (candidate lh lm uh um now lock_t unlock_t in_w i) as [base|e];
    cbn [bind]; [|discriminate].
  destruct (datetime_gtb base now) eqn:Hgt; [|exact IH].
  now intros [= <-].
Qed.

(** C6.  Whenever [nextTransition] returns an instant, the instant is
    strictly after [now]: in the order of datetimes that the program
    compares with, and in microseconds.  So is the instant that
    [update_countdown] computes, against the corrected current time. *)
Theorem nextTransition_strictly_after_now :
  (forall (lock unlock : Z * Z) (days_ : list Z) (enabled_ : bool) (now r : datetime),
      nextTransition lock unlock days_ enabled_ now = Return (Some r) ->
      datetime_gtb r now = true /\
      (valid_datetime now = true -> to_us now < to_us r))
  /\
  (forall (dlg : SetupDialog) (sys_now r : datetime),
      update_countdown dlg sys_now = Return (Some r) ->
      to_us (add sys_now (dialog_offset dlg)) < to_us r).
Proof.
  assert (Hcore : forall lock unlock days_ enabled_ now r,
             nextTransition lock unlock days_ enabled_ now = Return (Some r) ->
             datetime_gtb r now = true /\
             (valid_datetime now = true -> to_us now < to_us r)).
  { intros lock unlock days_ enabled_ now r Hnext.
    assert (Hgt : datetime_gtb r now = true).
    { destruct lock as [lh lm], unlock as [uh um]. unfold nextTransition in Hnext.
      destruct (negb enabled_ || negb (mem (weekday now) days_)); [discriminate|].
      destruct (dtime lh lm) as [lock_t|e]; [|discriminate].
      destruct (dtime uh um) as [unlock_t|e]; [|discriminate].
      cbn [bind] in Hnext. eapply scan_after_now; eauto. }
    split; [exact Hgt|]. intros Hn.
    destruct (nextTransition_Some_inv _ _ _ _ _ _ Hnext)
      as (-> & Hd & lock_t & unlock_t & Hl & Hu).
    rewrite (nextTransition_find lock unlock days_ now lock_t unlock_t Hn Hl Hu Hd) in Hnext.
    destruct (find (qualifies lock_t unlock_t days_ now) range7) as [i|]; [|discriminate].
    injection Hnext as <-.
    apply datetime_gtb_to_us; eauto using candidate_at_valid. }
  split; [exact Hcore|].
  intros dlg sys_now r Hnext. unfold update_countdown in Hnext.
  apply Hcore in Hnext. destruct Hnext as [_ Hlt]. apply Hlt, add_valid.
Qed.

Lemma nextTransition_strictly_after_now_witness :
  nextTransition (18, 0) (6, 0) all_days true (at_time monday 20 0)
  = Return (Some (at_time tuesday 6 0)) /\
  datetime_gtb (at_time tuesday 6 0) (at_time monday 20 0) = true /\
  to_us (at_time monday 20 0) < to_us (at_time tuesday 6 0).
Proof.
  destruct nextTransition_strictly_after_now as (Hrule & _).
  destruct (Hrule (18, 0) (6, 0) all_days true (at_time monday 20 0) (at_time tuesday 6 0)
                  eq_refl) as [Hgt Hlt].
  split; [reflexivity|]. split; [exact Hgt|]. apply Hlt. reflexivity.
Defined.

(** ** The clock correction ([LockerApp.sync_time], [LockerApp.current_time]) *)






(** ** The password gate ([LockerApp.verify]) *)



(** ** More about the lock window *)

Lemma in_window_swap (l u t : time) :
  l <> u -> in_window u l t = negb (in_window l u t).
Proof.
  intros Hne. unfold in_window.
  rewrite !time_leb_geb, !time_geb_negb_ltb.
  assert (Hul : time_ltb u l = negb (time_ltb l u)).
  { unfold time_ltb. rewrite (time_cmp_antisym l u).
    destruct (time_cmp l u) eqn:Hc; try reflexivity.
    apply time_cmp_eq in Hc. contradiction. }
  rewrite Hul.
  destruct (time_ltb l u), (time_ltb t l), (time_ltb t u); reflexivity.
Qed.

Lemma swap_times_past_guard (cfg : Config) (now : datetime) (lock_t unlock_t : time) :
  dtime (fst (lock_time cfg)) (snd (lock_time cfg)) = Return lock_t ->
  dtime (fst (unlock_time cfg)) (snd (unlock_time cfg)) = Return unlock_t ->
  enabled cfg = true -> mem (weekday now) (days cfg) = true ->
  isInWindow (swap_times cfg) now = Return (in_window unlock_t lock_t (timeof now)).
Proof.
  intros Hl Hu He Hd. now apply isInWindow_past_guard.
Qed.

(** Exchanging the lock and unlock times complements the window: on
    an enabled day of an enabled schedule whose two times differ, an
    instant is inside the window of the exchanged schedule exactly
    when it is outside the window of the schedule. *)
Theorem isInWindow_swap_times_complement
        (cfg : Config) (now : datetime) (lock_t unlock_t : time) :
  dtime (fst (lock_time cfg)) (snd (lock_time cfg)) = Return lock_t ->
  dtime (fst (unlock_time cfg)) (snd (unlock_time cfg)) = Return unlock_t ->
  lock_t <> unlock_t ->
  enabled cfg = true -> mem (weekday now) (days cfg) = true ->
  exists b : bool,
    isInWindow cfg now = Return b /\
    isInWindow (swap_times cfg) now = Return (negb b).
Proof.
  intros Hl Hu Hne He Hd.
  exists (in_window lock_t unlock_t (timeof now)). split.
  - now apply isInWindow_past_guard.
  - rewrite (swap_times_past_guard cfg now lock_t unlock_t Hl Hu He Hd).
    now rewrite in_window_swap.
Qed.

Lemma isInWindow_swap_times_complement_witness :
  exists b : bool,
    isInWindow DEFAULT_CONFIG (at_time monday 12 0) = Return b /\
    isInWindow (swap_times DEFAULT_CONFIG) (at_time monday 12 0) = Return (negb b).
Proof.
  apply (isInWindow_swap_times_complement DEFAULT_CONFIG (at_time monday 12 0)
           (mktime 18 0 0 0) (mktime 6 0 0 0)); try reflexivity.
  discriminate.
Defined.

Lemma weekday_shift_weeks (o k : Z) (t : time) :
  weekday (mkdatetime (o + 7 * k) t) = weekday (mkdatetime o t).
Proof.
  unfold weekday. cbn [toordinal].
  replace (o + 7 * k + 6) with (o + 6 + k * 7) by lia.
  apply Z.mod_add. lia.
Qed.

Lemma add_weeks (now : datetime) (k : Z) :
  valid_datetime now = true ->
  add now (timedelta_days (7 * k)) = mkdatetime (toordinal now + 7 * k) (timeof now).
Proof.
  apply add_days.
Qed.

(** The window is weekly: a whole number of weeks later (or earlier)
    [isInWindow] gives the same answer, exception included. *)
Theorem isInWindow_weekly (cfg : Config) (now : datetime) (k : Z) :
  valid_datetime now = true ->
  isInWindow cfg (add now (timedelta_days (7 * k))) = isInWindow cfg now.
Proof.
  intros Hn. rewrite (add_weeks now k Hn). unfold isInWindow.
  rewrite weekday_shift_weeks. cbn [timeof].
  destruct now as [o t]. reflexivity.
Qed.

Lemma isInWindow_weekly_witness :
  isInWindow DEFAULT_CONFIG (add (at_time monday 20 0) (timedelta_days (7 * 3)))
  = isInWindow DEFAULT_CONFIG (at_time monday 20 0).
Proof.
  apply (isInWindow_weekly DEFAULT_CONFIG (at_time monday 20 0) 3). reflexivity.
Defined.

(** [check_lock] raises exactly when the schedule is enabled, today
    is an enabled day and one of the two configured times is out of
    range; a disabled schedule or a disabled day never raises. *)
Theorem check_lock_raises_iff (cfg : Config) (now : datetime) (os_error : option exn) :
  (exists e, check_lock cfg now os_error = Raise e) <->
  enabled cfg = true /\ mem (weekday now) (days cfg) = true /\
  ((exists e, dtime (fst (lock_time cfg)) (snd (lock_time cfg)) = Raise e) \/
   (exists e, dtime (fst (unlock_time cfg)) (snd (unlock_time cfg)) = Raise e)).
Proof.
  unfold check_lock.
  destruct (lock_time cfg) as [lh lm], (unlock_time cfg) as [uh um]. cbn [fst snd].
  destruct (enabled cfg); cbn [negb orb].
  2:{ split; [intros [e He]; discriminate | intros (H & _); discriminate]. }
  destruct (mem (weekday now) (days cfg)); cbn [negb].
  2:{ split; [intros [e He]; discriminate | intros (_ & H & _); discriminate]. }
  destruct (dtime lh lm) as [lock_t|e1]; cbn [bind].
  - destruct (dtime uh um) as [unlock_t|e2]; cbn [bind].
    + split.
      * intros [e He]. destruct (in_window lock_t unlock_t (timeof now)); discriminate.
      * intros (_ & _ & [[e He] | [e He]]); discriminate.
    + split; [|intros _; now exists e2].
      intros _. repeat split. right. now exists e2.
  - split; [|intros _; now exists e1].
    intros _. repeat split. left. now exists e1.
Qed.

(** ** More about the countdown *)

Lemma weekday_today (now : datetime) : (weekday now + 0) mod 7 = weekday now.
Proof.
  rewrite Z.add_0_r. apply Z.mod_small, weekday_range.
Qed.

(** A later day of the scan qualifies as soon as it is enabled. *)
Lemma qualifies_later (lock_t unlock_t : time) (days_ : list Z) (now : datetime) (i : Z) :
  1 <= i < 7 ->
  qualifies lock_t unlock_t days_ now i = mem ((weekday now + i) mod 7) days_.
Proof.
  intros Hi. unfold qualifies, candidate_at, advance.
  rewrite (same_weekday_today now i) by lia.
  replace (i =? 0) with false by (symmetry; apply Z.eqb_neq; lia).
  rewrite andb_false_r. cbn [andb].
  destruct now as [o t]. cbn [toordinal].
  rewrite datetime_gtb_later_day by lia. apply andb_true_r.
Qed.

(** Today qualifies inside the window; outside it, while the lock
    time is still ahead. *)
Lemma qualifies_today (lock_t unlock_t : time) (days_ : list Z) (now : datetime) :
  mem (weekday now) days_ = true ->
  qualifies lock_t unlock_t days_ now 0 =
  if in_window lock_t unlock_t (timeof now) then true
  else time_ltb (timeof now) lock_t.
Proof.
  intros Hd. unfold qualifies, candidate_at, advance, target.
  rewrite weekday_today, Hd, Z.eqb_refl. cbn [andb].
  destruct now as [o t]. cbn [toordinal timeof].
  destruct (in_window lock_t unlock_t t) eqn:Hw; cbn [andb].
  - unfold in_window in Hw. rewrite !time_geb_negb_ltb in *.
    destruct (time_ltb lock_t unlock_t); cbn [negb andb].
    + apply andb_true_iff in Hw. destruct Hw as [_ Hw].
      rewrite Z.add_0_r, Z.add_0_r, datetime_gtb_same_day. exact Hw.
    + destruct (time_ltb t unlock_t) eqn:Hlt; cbn [negb].
      * rewrite Z.add_0_r, Z.add_0_r, datetime_gtb_same_day. exact Hlt.
      * apply datetime_gtb_later_day. lia.
  - rewrite Z.add_0_r, Z.add_0_r. apply datetime_gtb_same_day.
Qed.

Lemma isInWindow_true_inv (cfg : Config) (now : datetime) :
  isInWindow cfg now = Return true ->
  enabled cfg = true /\ mem (weekday now) (days cfg) = true /\
  exists lock_t unlock_t,
    dtime (fst (lock_time cfg)) (snd (lock_time cfg)) = Return lock_t /\
    dtime (fst (unlock_time cfg)) (snd (unlock_time cfg)) = Return unlock_t /\
    in_window lock_t unlock_t (timeof now) = true.
Proof.
  unfold isInWindow.
  destruct (lock_time cfg) as [lh lm], (unlock_time cfg) as [uh um]. cbn [fst snd].
  destruct (enabled cfg); cbn [negb orb]; [|discriminate].
  destruct (mem (weekday now) (days cfg)); cbn [negb]; [|discriminate].
  destruct (dtime lh lm) as [lock_t|e]; cbn [bind]; [|discriminate].
  destruct (dtime uh um) as [unlock_t|e]; cbn [bind]; [|discriminate].
  intros [= Hw]. repeat split. now exists lock_t, unlock_t.
Qed.

(** Whenever [check_lock] would lock, on a date before the last one
    that [datetime] can represent, the countdown of the same schedule
    shows a real instant, never 'N/A': that instant is at the unlock
    time of day and at most 24 hours after [now]. *)
Theorem countdown_inside_window (cfg : Config) (now : datetime) :
  valid_datetime now = true ->
  in_date_range (toordinal now) = true ->
  in_date_range (toordinal now + 1) = true ->
  isInWindow cfg now = Return true ->
  exists (r : datetime) (unlock_t : time),
    dtime (fst (unlock_time cfg)) (snd (unlock_time cfg)) = Return unlock_t /\
    nextTransition (lock_time cfg) (unlock_time cfg) (days cfg) (enabled cfg) now
    = Return (Some r) /\
    timeof r = unlock_t /\
    0 < to_us r - to_us now <= us_per_day.
Proof.
  intros Hn _ _ Hin.
  destruct (isInWindow_true_inv cfg now Hin) as (He & Hd & lock_t & unlock_t & Hl & Hu & Hw).
  rewrite He.
  rewrite (nextTransition_find _ _ _ now lock_t unlock_t Hn Hl Hu Hd).
  pose proof (qualifies_today lock_t unlock_t (days cfg) now Hd) as Hq.
  rewrite Hw in Hq. unfold range7. cbn [find]. rewrite Hq. cbn [option_map].
  exists (candidate_at lock_t unlock_t now 0), unlock_t.
  split; [exact Hu|]. split; [reflexivity|].
  unfold candidate_at, target. rewrite Hw. cbn [timeof]. split; [reflexivity|].
  pose proof (dtime_valid _ _ _ Hu) as Hvu.
  pose proof (tod_us_range _ Hvu) as Hru.
  pose proof (tod_us_range _ Hn) as Hrn.
  unfold to_us. cbn [toordinal timeof].
  unfold qualifies, candidate_at, target in Hq. rewrite Hw in Hq.
  apply andb_true_iff in Hq. destruct Hq as [_ Hgt].
  unfold advance in *. rewrite Hw, weekday_today, Z.eqb_refl in *. cbn [andb] in *.
  destruct now as [o t]. unfold valid_datetime in Hn. cbn [toordinal timeof] in *.
  destruct (time_geb lock_t unlock_t); cbn [andb] in *.
  - destruct (time_geb t unlock_t) eqn:Hge.
    + rewrite (time_geb_tod_us _ _ Hn Hvu) in Hge. apply Z.leb_le in Hge.
      unfold us_per_day in *. lia.
    + rewrite Z.add_0_r, Z.add_0_r, datetime_gtb_same_day in Hgt.
      rewrite (time_ltb_tod_us _ _ Hn Hvu) in Hgt. apply Z.ltb_lt in Hgt.
      unfold us_per_day in *. lia.
  - rewrite Z.add_0_r, Z.add_0_r, datetime_gtb_same_day in Hgt.
    rewrite (time_ltb_tod_us _ _ Hn Hvu) in Hgt. apply Z.ltb_lt in Hgt.
    unfold us_per_day in *. lia.
Qed.

Lemma countdown_inside_window_witness :
  exists (r : datetime) (unlock_t : time),
    dtime (fst (unlock_time noon_config)) (snd (unlock_time noon_config)) = Return unlock_t /\
    nextTransition (lock_time noon_config) (unlock_time noon_config) (days noon_config)
                   (enabled noon_config) (at_time monday 12 0)
    = Return (Some r) /\
    timeof r = unlock_t /\
    0 < to_us r - to_us (at_time monday 12 0) <= us_per_day.
Proof.
  apply (countdown_inside_window noon_config (at_time monday 12 0)); reflexivity.
Defined.

Lemma nextTransition_Some_form (lock unlock : Z * Z) (days_ : list Z) (enabled_ : bool)
      (now r : datetime) :
  valid_datetime now = true ->
  nextTransition lock unlock days_ enabled_ now = Return (Some r) ->
  exists (lock_t unlock_t : time) (i : Z),
    dtime (fst lock) (snd lock) = Return lock_t /\
    dtime (fst unlock) (snd unlock) = Return unlock_t /\
    0 <= i < 7 /\
    qualifies lock_t unlock_t days_ now i = true /\
    r = candidate_at lock_t unlock_t now i.
Proof.
  intros Hn Hnext.
  destruct (nextTransition_Some_inv _ _ _ _ _ _ Hnext)
    as (-> & Hd & lock_t & unlock_t & Hl & Hu).
  rewrite (nextTransition_find lock unlock days_ now lock_t unlock_t Hn Hl Hu Hd) in Hnext.
  destruct (find (qualifies lock_t unlock_t days_ now) range7) as [i|] eqn:Hfind;
    [|discriminate].
  injection Hnext as <-.
  apply find_range7_first in Hfind. destruct Hfind as (Hi & Hq & _).
  now exists lock_t, unlock_t, i.
Qed.

(** The countdown on an enabled day shows 'N/A' exactly when [now] is
    outside the window, the lock time of today is not ahead any more
    and none of the six following days is enabled: the scan stops
    short of the same weekday of next week.  A wrapping schedule never
    shows 'N/A' on an enabled day. *)
Theorem countdown_NA_iff (lock unlock : Z * Z) (days_ : list Z) (now : datetime)
        (lock_t unlock_t : time) :
  valid_datetime now = true ->
  dtime (fst lock) (snd lock) = Return lock_t ->
  dtime (fst unlock) (snd unlock) = Return unlock_t ->
  mem (weekday now) days_ = true ->
  (nextTransition lock unlock days_ true now = Return None <->
   in_window lock_t unlock_t (timeof now) = false /\
   time_ltb (timeof now) lock_t = false /\
   forall i, 1 <= i <= 6 -> mem ((weekday now + i) mod 7) days_ = false)
  /\
  (time_geb lock_t unlock_t = true ->
   nextTransition lock unlock days_ true now <> Return None).
Proof.
  intros Hn Hl Hu Hd.
  rewrite (nextTransition_find lock unlock days_ now lock_t unlock_t Hn Hl Hu Hd).
  pose proof (qualifies_today lock_t unlock_t days_ now Hd) as Hq0.
  assert (Hiff : Return (option_map (candidate_at lock_t unlock_t now)
                                    (find (qualifies lock_t unlock_t days_ now) range7))
                 = Return None <->
                 in_window lock_t unlock_t (timeof now) = false /\
                 time_ltb (timeof now) lock_t = false /\
                 forall i, 1 <= i <= 6 -> mem ((weekday now + i) mod 7) days_ = false).
  { split.
    - intros H.
      assert (Hnone : find (qualifies lock_t unlock_t days_ now) range7 = None).
      { destruct (find (qualifies lock_t unlock_t days_ now) range7); [discriminate|auto]. }
      rewrite find_range7_none in Hnone.
      pose proof (Hnone 0 ltac:(lia)) as H0. rewrite Hq0 in H0.
      destruct (in_window lock_t unlock_t (timeof now)); [discriminate|].
      split; [reflexivity|]. split; [exact H0|].
      intros i Hi. rewrite <- (qualifies_later lock_t unlock_t days_ now i) by lia.
      apply Hnone. lia.
    - intros (Hw & Hlt & Hrest).
      assert (Hnone : find (qualifies lock_t unlock_t days_ now) range7 = None).
      { apply find_range7_none. intros i Hi.
        destruct (Z.eq_dec i 0) as [-> | Hne].
        - now rewrite Hq0, Hw.
        - rewrite qualifies_later by lia. apply Hrest. lia. }
      now rewrite Hnone. }
  split; [exact Hiff|].
  intros Hwrap Hnone. apply Hiff in Hnone. destruct Hnone as (Hw & Hlt & _).
  unfold in_window in Hw. rewrite time_geb_negb_ltb in Hwrap.
  apply negb_true_iff in Hwrap. rewrite Hwrap in Hw.
  rewrite time_geb_negb_ltb, Hlt in Hw. discriminate.
Qed.

Lemma countdown_NA_iff_witness :
  nextTransition (9, 0) (17, 0) [0] true (at_time monday 18 0) = Return None.
Proof.
  destruct (countdown_NA_iff (9, 0) (17, 0) [0] (at_time monday 18 0)
              (mktime 9 0 0 0) (mktime 17 0 0 0) eq_refl eq_refl eq_refl eq_refl)
    as [[_ Hback] _].
  apply Hback. split; [reflexivity|]. split; [reflexivity|].
  intros i Hi.
  assert (i = 1 \/ i = 2 \/ i = 3 \/ i = 4 \/ i = 5 \/ i = 6) as Hcases by lia.
  destruct Hcases as [-> | [-> | [-> | [-> | [-> | ->]]]]]; reflexivity.
Defined.

Lemma weekday_add_days (o i : Z) (t1 t2 : time) :
  weekday (mkdatetime (o + i) t1) = (weekday (mkdatetime o t2) + i) mod 7.
Proof.
  unfold weekday. cbn [toordinal].
  rewrite Z.add_mod_idemp_l by lia. f_equal. lia.
Qed.

(** An instant that the countdown returns is less than seven days
    after [now], on one of the days today .. today + 6, and falls on
    an enabled weekday unless it is tomorrow (the wrap-case advance,
    which does not test the day). *)
Theorem countdown_within_week (lock unlock : Z * Z) (days_ : list Z) (enabled_ : bool)
        (now r : datetime) :
  valid_datetime now = true ->
  nextTransition lock unlock days_ enabled_ now = Return (Some r) ->
  0 < to_us r - to_us now < 7 * us_per_day /\
  toordinal now <= toordinal r <= toordinal now + 6 /\
  (mem (weekday r) days_ = true \/ toordinal r = toordinal now + 1).
Proof.
  intros Hn Hnext.
  destruct (nextTransition_Some_form _ _ _ _ _ _ Hn Hnext)
    as (lock_t & unlock_t & i & Hl & Hu & Hi & Hq & ->).
  pose proof (candidate_at_valid _ _ _ _ lock_t unlock_t now i Hl Hu) as Hvr.
  unfold qualifies in Hq. apply andb_true_iff in Hq. destruct Hq as [Hmem Hgt].
  pose proof (datetime_gtb_to_us _ _ Hvr Hn Hgt) as Hlt.
  pose proof (tod_us_range _ Hvr) as Hrr. pose proof (tod_us_range _ Hn) as Hrn.
  pose proof (advance_today_only lock_t unlock_t now i Hi) as Hadv.
  unfold to_us in *. unfold candidate_at in *. cbn [toordinal timeof] in *.
  destruct (advance lock_t unlock_t now i) eqn:Ha.
  - specialize (Hadv eq_refl). subst i.
    split; [unfold us_per_day, us_per_second in *; lia|]. split; [lia|]. right. lia.
  - split; [unfold us_per_day, us_per_second in *; lia|]. split; [lia|]. left.
    destruct now as [o t]. cbn [toordinal] in *.
    rewrite Z.add_0_r, (weekday_add_days o i _ t). exact Hmem.
Qed.

Lemma countdown_within_week_witness :
  0 < to_us (at_time (monday + 3) 9 0) - to_us (at_time monday 18 0) < 7 * us_per_day /\
  toordinal (at_time monday 18 0) <= toordinal (at_time (monday + 3) 9 0)
  <= toordinal (at_time monday 18 0) + 6 /\
  (mem (weekday (at_time (monday + 3) 9 0)) [0; 3] = true \/
   toordinal (at_time (monday + 3) 9 0) = toordinal (at_time monday 18 0) + 1).
Proof.
  apply (countdown_within_week (9, 0) (17, 0) [0; 3] true (at_time monday 18 0));
    reflexivity.
Defined.

Lemma find_pointwise {A : Type} (f g : A -> bool) (l : list A) :
  (forall a, f a = g a) -> find f l = find g l.
Proof.
  intros H. induction l as [|a l IH]; [reflexivity|].
  cbn [find]. now rewrite H, IH.
Qed.

Lemma datetime_gtb_shift (o1 o2 k : Z) (t1 t2 : time) :
  datetime_gtb (mkdatetime (o1 + k) t1) (mkdatetime (o2 + k) t2)
  = datetime_gtb (mkdatetime o1 t1) (mkdatetime o2 t2).
Proof.
  unfold datetime_gtb, datetime_cmp. cbn [toordinal timeof].
  destruct (Z.compare_spec o1 o2) as [-> | H | H].
  - now rewrite Z.compare_refl.
  - assert (H' : o1 + k < o2 + k) by lia. apply Z.compare_lt_iff in H'. now rewrite H'.
  - assert (H' : o2 + k < o1 + k) by lia. apply Z.compare_gt_iff in H'. now rewrite H'.
Qed.

(** The countdown is weekly: a whole number of weeks later (or
    earlier) [nextTransition] gives the same answer moved by as many
    weeks, 'N/A' and the exception of a malformed time included,
    provided [now], the instant that many weeks away and the six
    days after each are dates that [datetime] can represent. *)
Theorem nextTransition_weekly (lock unlock : Z * Z) (days_ : list Z) (enabled_ : bool)
        (now : datetime) (k : Z) :
  valid_datetime now = true ->
  in_date_range (toordinal now) = true ->
  in_date_range (toordinal now + 6) = true ->
  in_date_range (toordinal now + 7 * k) = true ->
  in_date_range (toordinal now + 7 * k + 6) = true ->
  nextTransition lock unlock days_ enabled_ (add now (timedelta_days (7 * k)))
  = outcome_map (option_map (fun r => add r (timedelta_days (7 * k))))
                (nextTransition lock unlock days_ enabled_ now).
Proof.
  intros Hn _ _ _ _. rewrite (add_weeks now k Hn).
  destruct now as [o t]. cbn [toordinal timeof].
  destruct (negb enabled_ || negb (mem (weekday (mkdatetime o t)) days_)) eqn:Hguard.
  - destruct lock as [lh lm], unlock as [uh um]. unfold nextTransition.
    rewrite weekday_shift_weeks, Hguard. reflexivity.
  - apply orb_false_iff in Hguard. destruct Hguard as [He Hd].
    apply negb_false_iff in He, Hd. subst enabled_.
    destruct (dtime (fst lock) (snd lock)) as [lock_t|e] eqn:Hl.
    2:{ destruct lock as [lh lm], unlock as [uh um]. unfold nextTransition.
        rewrite weekday_shift_weeks, Hd. cbn [fst snd] in Hl. cbn [negb orb].
        now rewrite Hl. }
    destruct (dtime (fst unlock) (snd unlock)) as [unlock_t|e] eqn:Hu.
    2:{ destruct lock as [lh lm], unlock as [uh um]. unfold nextTransition.
        rewrite weekday_shift_weeks, Hd. cbn [fst snd] in Hl, Hu. cbn [negb orb].
        now rewrite Hl, Hu. }
    rewrite (nextTransition_find lock unlock days_ (mkdatetime o t) lock_t unlock_t
               Hn Hl Hu Hd).
    rewrite (nextTransition_find lock unlock days_ (mkdatetime (o + 7 * k) t)
               lock_t unlock_t Hn Hl Hu)
      by (now rewrite weekday_shift_weeks).
    cbn [outcome_map]. f_equal.
    assert (Hcand : forall i,
               candidate_at lock_t unlock_t (mkdatetime (o + 7 * k) t) i
               = add (candidate_at lock_t unlock_t (mkdatetime o t) i)
                     (timedelta_days (7 * k))).
    { intros i.
      rewrite add_days by (eapply candidate_at_valid; eauto).
      unfold candidate_at, advance, target.
      rewrite weekday_shift_weeks. cbn [toordinal timeof]. f_equal. lia. }
    assert (Hqual : forall i,
               qualifies lock_t unlock_t days_ (mkdatetime (o + 7 * k) t) i
               = qualifies lock_t unlock_t days_ (mkdatetime o t) i).
    { intros i. unfold qualifies, candidate_at, advance, target.
      rewrite weekday_shift_weeks. cbn [toordinal timeof]. f_equal.
      replace (o + 7 * k + i
               + (if in_window lock_t unlock_t t && time_geb lock_t unlock_t
                     && ((weekday (mkdatetime o t) + i) mod 7 =? weekday (mkdatetime o t))
                     && time_geb t unlock_t then 1 else 0))
        with (o + i
              + (if in_window lock_t unlock_t t && time_geb lock_t unlock_t
                    && ((weekday (mkdatetime o t) + i) mod 7 =? weekday (mkdatetime o t))
                    && time_geb t unlock_t then 1 else 0) + 7 * k) by lia.
      apply datetime_gtb_shift. }
    rewrite (find_pointwise _ _ range7 Hqual).
    destruct (find (qualifies lock_t unlock_t days_ (mkdatetime o t)) range7) as [i|];
      cbn [option_map]; [|reflexivity].
    now rewrite Hcand.
Qed.

Lemma nextTransition_weekly_witness :
  nextTransition (18, 0) (6, 0) all_days true
                 (add (at_time monday 20 0) (timedelta_days (7 * 2)))
  = Return (Some (add (at_time tuesday 6 0) (timedelta_days (7 * 2)))).
Proof.
  apply (nextTransition_weekly (18, 0) (6, 0) all_days true (at_time monday 20 0) 2);
    reflexivity.
Defined.

(** The wrap-case advance does not look at the next day.  On the
    evening of an enabled day inside a wrapping window, on a date
    before the last one that [datetime] can represent, the countdown
    points at the unlock time of tomorrow; when tomorrow is not an
    enabled day the window is in fact over at midnight: [isInWindow]
    is false all of tomorrow. *)
Theorem countdown_overshoots_disabled_tomorrow
        (cfg : Config) (now : datetime) (lock_t unlock_t : time) :
  valid_datetime now = true ->
  in_date_range (toordinal now) = true ->
  in_date_range (toordinal now + 1) = true ->
  dtime (fst (lock_time cfg)) (snd (lock_time cfg)) = Return lock_t ->
  dtime (fst (unlock_time cfg)) (snd (unlock_time cfg)) = Return unlock_t ->
  enabled cfg = true -> mem (weekday now) (days cfg) = true ->
  time_geb lock_t unlock_t = true ->
  time_geb (timeof now) lock_t = true ->
  mem ((weekday now + 1) mod 7) (days cfg) = false ->
  nextTransition (lock_time cfg) (unlock_time cfg) (days cfg) (enabled cfg) now
  = Return (Some (mkdatetime (toordinal now + 1) unlock_t))
  /\
  (forall t : time, isInWindow cfg (mkdatetime (toordinal now + 1) t) = Return false).
Proof.
  intros Hn _ _ Hl Hu He Hd Hwrap Hlate Hnext. split.
  - pose proof (dtime_valid _ _ _ Hl) as Hvl. pose proof (dtime_valid _ _ _ Hu) as Hvu.
    assert (Hw : in_window lock_t unlock_t (timeof now) = true).
    { unfold in_window. rewrite time_geb_negb_ltb in Hwrap.
      apply negb_true_iff in Hwrap. now rewrite Hwrap, Hlate. }
    assert (Hpast : time_geb (timeof now) unlock_t = true).
    { rewrite (time_geb_tod_us _ _ Hvl Hvu) in Hwrap.
      rewrite (time_geb_tod_us _ _ Hn Hvl) in Hlate.
      rewrite (time_geb_tod_us _ _ Hn Hvu).
      apply Z.leb_le in Hwrap, Hlate. apply Z.leb_le. lia. }
    rewrite He.
    rewrite (nextTransition_find _ _ _ now lock_t unlock_t Hn Hl Hu Hd).
    pose proof (qualifies_today lock_t unlock_t (days cfg) now Hd) as Hq.
    rewrite Hw in Hq. unfold range7. cbn [find]. rewrite Hq. cbn [option_map].
    unfold candidate_at, advance, target.
    rewrite Hw, Hwrap, Hpast, weekday_today, Z.eqb_refl. cbn [andb].
    do 2 f_equal. f_equal. lia.
  - intros t. apply isInWindow_guard. right.
    destruct now as [o nt]. cbn [toordinal] in *.
    now rewrite (weekday_add_days o 1 t nt).
Qed.

Lemma countdown_overshoots_disabled_tomorrow_witness :
  nextTransition (lock_time monday_only) (unlock_time monday_only) (days monday_only)
                 (enabled monday_only) (at_time monday 20 0)
  = Return (Some (at_time tuesday 6 0))
  /\
  isInWindow monday_only (at_time tuesday 0 0) = Return false.
Proof.
  destruct (countdown_overshoots_disabled_tomorrow monday_only (at_time monday 20 0)
              (mktime 18 0 0 0) (mktime 6 0 0 0)
              eq_refl eq_refl eq_refl eq_refl eq_refl eq_refl eq_refl eq_refl
              eq_refl eq_refl)
    as [Hnext Hout].
  split; [exact Hnext|]. apply (Hout (mktime 0 0 0 0)).
Defined.

Lemma nextTransition_delta_range (lock unlock : Z * Z) (days_ : list Z) (enabled_ : bool)
      (now r : datetime) :
  valid_datetime now = true ->
  nextTransition lock unlock days_ enabled_ now = Return (Some r) ->
  0 < sub r now < 7 * 86400000000.
Proof.
  intros Hn Hnext.
  destruct (nextTransition_Some_form _ _ _ _ _ _ Hn Hnext)
    as (lock_t & unlock_t & i & Hl & Hu & Hi & Hq & ->).
  pose proof (candidate_at_valid _ _ _ _ lock_t unlock_t now i Hl Hu) as Hvr.
  unfold qualifies in Hq. apply andb_true_iff in Hq. destruct Hq as [_ Hgt].
  pose proof (datetime_gtb_to_us _ _ Hvr Hn Hgt) as Hlt.
  pose proof (tod_us_range _ Hvr) as Hrr. pose proof (tod_us_range _ Hn) as Hrn.
  pose proof (advance_today_only lock_t unlock_t now i Hi) as Hadv.
  unfold sub, to_us in *. unfold candidate_at in *. cbn [toordinal timeof] in *.
  unfold us_per_day, us_per_second in *.
  destruct (advance lock_t unlock_t now i) eqn:Ha.
  - specialize (Hadv eq_refl). lia.
  - lia.
Qed.

Lemma time_until_text_split (delta : Z) :
  0 < delta < 7 * 86400000000 ->
  let d := delta / 86400000000 in
  let rem := (delta mod 86400000000) / 1000000 in
  let h := rem / 3600 in
  let m := (rem mod 3600) / 60 in
  let s := (rem mod 3600) mod 60 in
  0 <= d <= 6 /\ 0 <= h < 24 /\ 0 <= m < 60 /\ 0 <= s < 60 /\
  (d * 24 + h) * 60 + m = delta / 60000000 /\
  ((d * 24 + h) * 60 + m) * 60 + s = delta / 1000000.
Proof.
  intros Hd. cbv zeta. Z.div_mod_to_equations. lia.
Qed.

(** The text of the countdown label.  It is 'N/A' exactly when no
    next transition is found.  Otherwise the days shown are between 1
    and 6 in the form with days and 0 in the form without, the hours
    are below 24, the minutes and seconds below 60, and the numbers
    shown add up to the time until the transition, in whole minutes
    in the form with days and in whole seconds in the form without. *)
Theorem update_countdown_text_shows_time_left
        (dlg : SetupDialog) (sys_now : datetime) (txt : countdown_text) :
  update_countdown_text dlg sys_now = Return txt ->
  let now := add sys_now (dialog_offset dlg) in
  match txt with
  | TextNA => update_countdown dlg sys_now = Return None
  | TextDaysHoursMinutes d h m =>
    exists r, update_countdown dlg sys_now = Return (Some r) /\
              1 <= d <= 6 /\ 0 <= h < 24 /\ 0 <= m < 60 /\
              (d * 24 + h) * 60 + m = (to_us r - to_us now) / (60 * us_per_second)
  | TextHoursMinutesSeconds h m s =>
    exists r, update_countdown dlg sys_now = Return (Some r) /\
              0 <= h < 24 /\ 0 <= m < 60 /\ 0 <= s < 60 /\
              (h * 60 + m) * 60 + s = (to_us r - to_us now) / us_per_second /\
              to_us r - to_us now < us_per_day
  end.
Proof.
  intros Htxt now. unfold update_countdown_text in Htxt.
  destruct (update_countdown dlg sys_now) as [[r|]|e] eqn:Hupd;
    cbn [bind] in Htxt; [| |discriminate].
  2:{ injection Htxt as <-. reflexivity. }
  injection Htxt as <-.
  assert (Hrange : 0 < sub r now < 7 * 86400000000).
  { unfold update_countdown in Hupd.
    eapply nextTransition_delta_range; [apply add_valid | exact Hupd]. }
  pose proof (time_until_text_split (sub r now) Hrange) as Hsplit. cbv zeta in Hsplit.
  unfold time_until_text, timedelta_days_of, timedelta_seconds_of.
  fold now. change us_per_day with 86400000000. change us_per_second with 1000000.
  change (60 * 1000000) with 60000000.
  change (to_us r - to_us now) with (sub r now).
  destruct Hsplit as (Hd & Hh & Hm & Hs & Hmin & Hsec).
  destruct (Z.ltb_spec 0 (sub r now / 86400000000)) as [Hpos | Hzero].
  - exists r. split; [reflexivity|]. unfold sub in *. repeat split; try lia.
  - exists r. split; [reflexivity|].
    assert (Hd0 : sub r now / 86400000000 = 0) by lia.
    rewrite Hd0 in Hsec. unfold sub in *. repeat split; try lia.
    apply Z.div_small_iff in Hd0; lia.
Qed.

Lemma update_countdown_text_shows_time_left_witness :
  update_countdown_text office_dialog (mkdatetime (monday + 4) (mktime 17 30 15 0))
  = Return (TextDaysHoursMinutes 2 15 29) /\
  (2 * 24 + 15) * 60 + 29
  = (to_us (at_time (monday + 7) 9 0)
     - to_us (add (mkdatetime (monday + 4) (mktime 17 30 15 0)) (dialog_offset office_dialog)))
    / (60 * us_per_second).
Proof.
  split; [reflexivity|].
  destruct (update_countdown_text_shows_time_left office_dialog
              (mkdatetime (monday + 4) (mktime 17 30 15 0))
              (TextDaysHoursMinutes 2 15 29) eq_refl) as (r & Hr & _ & _ & _ & Hsum).
  vm_compute in Hr. injection Hr as <-. exact Hsum.
Defined.

(** ** The day boxes of the setup dialog *)

Lemma checked_from_lower (cbs : list bool) (i x : Z) :
  In x (checked_from i cbs) -> i <= x.
Proof.
  revert i. induction cbs as [|cb rest IH]; intros i; cbn [checked_from]; [intros []|].
  destruct cb.
  - intros [<- | Hin]; [lia|]. apply IH in Hin. lia.
  - intros Hin. apply IH in Hin. lia.
Qed.

Lemma checked_from_sorted (cbs : list bool) (i : Z) :
  StronglySorted Z.lt (checked_from i cbs).
Proof.
  revert i. induction cbs as [|cb rest IH]; intros i; cbn [checked_from]; [constructor|].
  destruct cb; [|apply IH].
  constructor; [apply IH|].
  apply Forall_forall. intros x Hin. apply checked_from_lower in Hin. lia.
Qed.

Lemma mem_In (x : Z) (l : list Z) : mem x l = true <-> In x l.
Proof.
  unfold mem. rewrite existsb_exists. split.
  - intros (y & Hin & Heq). apply Z.eqb_eq in Heq. now subst.
  - intros Hin. exists x. split; [exact Hin|apply Z.eqb_refl].
Qed.

Lemma checked_from_In (cbs : list bool) (i x : Z) :
  In x (checked_from i cbs) <->
  i <= x < i + Z.of_nat (List.length cbs) /\ nth (Z.to_nat (x - i)) cbs false = true.
Proof.
  revert i. induction cbs as [|cb rest IH]; intros i.
  - cbn. split; [intros []|]. lia.
  - cbn [checked_from List.length].
    assert (Hstep : forall y, i + 1 <= y ->
                              nth (Z.to_nat (y - i)) (cb :: rest) false
                              = nth (Z.to_nat (y - (i + 1))) rest false).
    { intros y Hy. replace (Z.to_nat (y - i)) with (S (Z.to_nat (y - (i + 1)))) by lia.
      reflexivity. }
    destruct cb.
    + cbn [In]. rewrite IH. split.
      * intros [<- | (Hr & Hn)].
        -- split; [lia|]. now rewrite Z.sub_diag.
        -- split; [lia|]. now rewrite Hstep by lia.
      * intros (Hr & Hn). destruct (Z.eq_dec x i) as [-> | Hne]; [now left|].
        right. split; [lia|]. now rewrite <- Hstep by lia.
    + rewrite IH. split.
      * intros (Hr & Hn). split; [lia|]. now rewrite Hstep by lia.
      * intros (Hr & Hn). destruct (Z.eq_dec x i) as [-> | Hne].
        -- rewrite Z.sub_diag in Hn. discriminate.
        -- split; [lia|]. now rewrite <- Hstep by lia.
Qed.

(** The list of days read off the day boxes is strictly increasing,
    so it has no duplicates, and it holds exactly the positions of
    the checked boxes. *)
Theorem checked_days_wellformed (cbs : list bool) :
  StronglySorted Z.lt (checked_from 0 cbs) /\
  (forall x : Z,
      mem x (checked_from 0 cbs) = true <->
      0 <= x < Z.of_nat (List.length cbs) /\ nth (Z.to_nat x) cbs false = true).
Proof.
  split; [apply checked_from_sorted|].
  intros x. rewrite mem_In, checked_from_In, Z.sub_0_r. reflexivity.
Qed.

Lemma nth_init_day_checks (days_ : list Z) (x : Z) :
  0 <= x < 7 -> nth (Z.to_nat x) (init_day_checks days_) false = mem x days_.
Proof.
  intros Hx. rewrite <- (Z2Nat.id x) at 2 by lia.
  assert (Hn : (Z.to_nat x < 7)%nat) by lia.
  generalize dependent (Z.to_nat x). intros n Hn.
  do 7 (destruct n as [|n]; [reflexivity|]). lia.
Qed.

Lemma mem_checked_init (days_ : list Z) (x : Z) :
  mem x (checked_from 0 (init_day_checks days_)) = mem x days_ && (0 <=? x) && (x <? 7).
Proof.
  assert (Hlen : Z.of_nat (List.length (init_day_checks days_)) = 7) by reflexivity.
  destruct (mem x (checked_from 0 (init_day_checks days_))) eqn:Hm.
  - apply mem_In, checked_from_In in Hm. destruct Hm as (Hr & Hn).
    rewrite Hlen in Hr. rewrite Z.sub_0_r, nth_init_day_checks in Hn by lia.
    rewrite Hn. symmetry. rewrite !andb_true_iff, Z.leb_le, Z.ltb_lt. lia.
  - destruct (mem x days_ && (0 <=? x) && (x <? 7)) eqn:Hall; [|reflexivity].
    rewrite !andb_true_iff, Z.leb_le, Z.ltb_lt in Hall. destruct Hall as [[Hd H0] H7].
    rewrite <- Hm. apply mem_In, checked_from_In.
    rewrite Hlen, Z.sub_0_r, nth_init_day_checks by lia.
    split; [lia|exact Hd].
Qed.

Lemma scan_days_ext (lh lm uh um : Z) (d1 d2 : list Z) (now : datetime)
      (lock_t unlock_t : time) (in_w : bool) (idxs : list Z) :
  (forall x, 0 <= x < 7 -> mem x d1 = mem x d2) ->
  scan lh lm uh um d1 now lock_t unlock_t in_w idxs
  = scan lh lm uh um d2 now lock_t unlock_t in_w idxs.
Proof.
  intros Hext. induction idxs as [|i rest IH]; [reflexivity|].
  cbn [scan]. rewrite (Hext ((weekday now + i) mod 7)) by (apply Z.mod_pos_bound; lia).
  now rewrite IH.
Qed.

(** Opening the dialog on a configuration and saving it unchanged
    keeps the schedule: the day list written back holds the days
    0..6 of the old list (duplicates and other numbers are dropped),
    and the lock decision and the countdown are what they were. *)
Theorem day_boxes_keep_schedule (cfg : Config) (now : datetime) :
  let days' := checked_from 0 (init_day_checks (days cfg)) in
  (forall x : Z, mem x days' = mem x (days cfg) && (0 <=? x) && (x <? 7)) /\
  isInWindow (with_days cfg days') now = isInWindow cfg now /\
  nextTransition (lock_time cfg) (unlock_time cfg) days' (enabled cfg) now
  = nextTransition (lock_time cfg) (unlock_time cfg) (days cfg) (enabled cfg) now.
Proof.
  intros days'.
  assert (Hext : forall x, 0 <= x < 7 -> mem x days' = mem x (days cfg)).
  { intros x Hx. unfold days'. rewrite mem_checked_init.
    replace (0 <=? x) with true by (symmetry; apply Z.leb_le; lia).
    replace (x <? 7) with true by (symmetry; apply Z.ltb_lt; lia).
    now rewrite !andb_true_r. }
  split; [intros x; apply mem_checked_init|].
  pose proof (weekday_range now) as Hw.
  split.
  - unfold isInWindow, with_days. cbn [enabled days lock_time unlock_time].
    now rewrite (Hext (weekday now) Hw).
  - unfold nextTransition.
    destruct (lock_time cfg) as [lh lm], (unlock_time cfg) as [uh um].
    rewrite (Hext (weekday now) Hw).
    destruct (negb (enabled cfg) || negb (mem (weekday now) (days cfg))); [reflexivity|].
    destruct (dtime lh lm) as [lock_t|e]; cbn [bind]; [|reflexivity].
    destruct (dtime uh um) as [unlock_t|e]; cbn [bind]; [|reflexivity].
    now apply scan_days_ext.
Qed.

Lemma init_checked_seven (cbs : list bool) :
  List.length cbs = 7%nat -> init_day_checks (checked_from 0 cbs) = cbs.
Proof.
  intros Hlen.
  do 7 (destruct cbs as [|? cbs]; [discriminate|]).
  destruct cbs; [|discriminate].
  repeat match goal with b : bool |- _ => destruct b end; reflexivity.
Qed.

(** ** Saving the dialog ([SetupDialog.accept]) *)

Lemma accept_Accepted_inv (sha : string -> string) (dlg : SetupDialog)
      (first_run : bool) (pw1 pw2 : string) (cfg cfg' : Config) :
  accept sha dlg first_run pw1 pw2 cfg = Accepted cfg' ->
  (pw1 <> EmptyString /\ pw1 = pw2 /\
   cfg' = store_schedule dlg (hash_password sha pw1))
  \/
  (pw1 = EmptyString /\ first_run = false /\
   cfg' = store_schedule dlg (password_hash cfg)).
Proof.
  unfold accept.
  destruct (String.eqb_spec pw1 EmptyString) as [Hempty | Hne]; cbn [negb].
  - destruct first_run; cbn [orb]; [discriminate|].
    intros [= <-]. right. auto.
  - rewrite orb_true_r. cbn [orb].
    destruct (String.eqb_spec pw1 pw2) as [Heq | Hdiff]; cbn [negb]; [|discriminate].
    intros [= <-]. left. auto.
Qed.

(** A save that goes through leaves a usable password.  When a
    password was typed, the confirmation equals it and [verify]
    accepts it against the saved configuration, whatever the digest
    is; when the field was left blank, this is not the first run and
    the stored digest is the one from before.  On the first run a
    blank password is never accepted. *)
Theorem accept_then_verify (sha : string -> string) (dlg : SetupDialog)
        (first_run : bool) (pw1 pw2 : string) (cfg cfg' : Config) :
  accept sha dlg first_run pw1 pw2 cfg = Accepted cfg' ->
  (pw1 <> EmptyString ->
   pw1 = pw2 /\
   forall app : LockerApp,
     config app = cfg' -> fst (fst (verify sha app pw1 true)) = true)
  /\
  (pw1 = EmptyString ->
   first_run = false /\ password_hash cfg' = password_hash cfg).
Proof.
  intros Hacc. apply accept_Accepted_inv in Hacc.
  destruct Hacc as [(Hne & Heq & ->) | (Hempty & Hfr & ->)]; split.
  - intros _. split; [exact Heq|].
    intros app Happ. unfold verify. cbn [negb]. rewrite Happ.
    cbn [store_schedule password_hash]. now rewrite String.eqb_refl.
  - intros Hempty. contradiction.
  - intros Hne. contradiction.
  - intros _. split; [exact Hfr|reflexivity].
Qed.

Lemma accept_then_verify_witness :
  accept prefix_digest office_dialog true "s3cret" "s3cret" DEFAULT_CONFIG
  = Accepted (store_schedule office_dialog (prefix_digest "s3cret")) /\
  fst (fst (verify prefix_digest
                   (set_config sample_app
                               (store_schedule office_dialog (prefix_digest "s3cret")))
                   "s3cret" true)) = true.
Proof.
  split; [reflexivity|].
  destruct (accept_then_verify prefix_digest office_dialog true "s3cret" "s3cret"
              DEFAULT_CONFIG (store_schedule office_dialog (prefix_digest "s3cret"))
              eq_refl) as [Htyped _].
  destruct Htyped as [_ Hverify]; [discriminate|].
  apply Hverify. reflexivity.
Defined.

(** A save is refused exactly when a password is required or typed
    (first run, or a non-empty first field) and the first field is
    empty or differs from the confirmation; a refused save writes
    nothing.  A save that goes through writes the widgets: the dialog
    reopened on the saved configuration shows the same seven day
    boxes, and the countdown previewed in the dialog is the countdown
    of the saved schedule. *)
Theorem accept_saves_what_is_shown (sha : string -> string) (dlg : SetupDialog)
        (first_run : bool) (pw1 pw2 : string) (cfg : Config) :
  (accept sha dlg first_run pw1 pw2 cfg = Rejected <->
   (first_run = true \/ pw1 <> EmptyString) /\ (pw1 = EmptyString \/ pw1 <> pw2))
  /\
  (forall cfg' : Config,
      accept sha dlg first_run pw1 pw2 cfg = Accepted cfg' ->
      (List.length (day_checks dlg) = 7%nat ->
       init_day_checks (days cfg') = day_checks dlg) /\
      (forall sys_now : datetime,
          update_countdown dlg sys_now
          = nextTransition (lock_time cfg') (unlock_time cfg') (days cfg') (enabled cfg')
                           (add sys_now (dialog_offset dlg)))).
Proof.
  split.
  - unfold accept.
    destruct (String.eqb_spec pw1 EmptyString) as [Hempty | Hne]; cbn [negb].
    + destruct first_run; cbn [orb].
      * split; [intros _|reflexivity]. split; [now left|now left].
      * split; [discriminate|]. intros [[Hf | Hp] _]; [discriminate|contradiction].
    + rewrite orb_true_r. cbn [orb].
      destruct (String.eqb_spec pw1 pw2) as [Heq | Hdiff]; cbn [negb].
      * split; [discriminate|]. intros [_ [He | Hd]]; contradiction.
      * split; [intros _|reflexivity]. split; [now right|now right].
  - intros cfg' Hacc. apply accept_Accepted_inv in Hacc.
    assert (Hshape : exists h, cfg' = store_schedule dlg h).
    { destruct Hacc as [(_ & _ & ->) | (_ & _ & ->)]; eexists; reflexivity. }
    destruct Hshape as [h ->]. cbn [store_schedule days lock_time unlock_time enabled].
    split; [apply init_checked_seven|reflexivity].
Qed.

Lemma accept_saves_what_is_shown_witness :
  accept prefix_digest office_dialog true "" "" DEFAULT_CONFIG = Rejected /\
  init_day_checks (days (store_schedule office_dialog (password_hash DEFAULT_CONFIG)))
  = day_checks office_dialog.
Proof.
  destruct (accept_saves_what_is_shown prefix_digest office_dialog true "" ""
              DEFAULT_CONFIG) as [[_ Hrej] _].
  destruct (accept_saves_what_is_shown prefix_digest office_dialog false "" ""
              DEFAULT_CONFIG) as [_ Hacc].
  split.
  - apply Hrej. split; left; reflexivity.
  - destruct (Hacc (store_schedule office_dialog (password_hash DEFAULT_CONFIG)) eq_refl)
      as [Hboxes _].
    apply Hboxes. reflexivity.
Defined.

(** ** The password gate over many attempts *)

Lemma verify_cancelled (sha : string -> string) (app : LockerApp) (pw : string) :
  verify sha app pw false = (false, app, []).
Proof.
  reflexivity.
Qed.

Lemma verify_config (sha : string -> string) (app : LockerApp) (pw : string) (ok : bool) :
  config (snd (fst (verify sha app pw ok))) = config app /\
  offset (snd (fst (verify sha app pw ok))) = offset app.
Proof.
  unfold verify. destruct ok; cbn [negb]; [|split; reflexivity].
  destruct (String.eqb (hash_password sha pw) (password_hash (config app)));
    split; reflexivity.
Qed.

Lemma verify_verdict (sha : string -> string) (app : LockerApp) (pw : string) (ok : bool) :
  fst (fst (verify sha app pw ok))
  = attempt_good sha (password_hash (config app)) (pw, ok).
Proof.
  unfold verify, attempt_good. cbn [fst snd]. destruct ok; cbn [negb andb]; [|reflexivity].
  now destruct (String.eqb (hash_password sha pw) (password_hash (config app))).
Qed.

Lemma verify_counter (sha : string -> string) (app : LockerApp) (pw : string) (ok : bool) :
  failed_attempts (snd (fst (verify sha app pw ok)))
  = if attempt_good sha (password_hash (config app)) (pw, ok) then 0
    else if attempt_wrong sha (password_hash (config app)) (pw, ok)
         then failed_attempts app + 1
         else failed_attempts app.
Proof.
  unfold verify, attempt_good, attempt_wrong. cbn [fst snd].
  destruct ok; cbn [negb andb]; [|reflexivity].
  now destruct (String.eqb (hash_password sha pw) (password_hash (config app))).
Qed.

(** Over any run of password dialogs the failure counter ends as the
    number of wrong passwords submitted since the last right one, or,
    when no right one was submitted, its starting value plus the
    number of wrong ones.  Cancelled dialogs do not count, and the
    configuration is never changed. *)
Theorem verify_all_counts_recent_failures
        (sha : string -> string) (app : LockerApp) (attempts : list (string * bool)) :
  let stored := password_hash (config app) in
  let final := verify_all sha app attempts in
  config final = config app /\
  failed_attempts final =
  match after_last_good (attempt_good sha stored) attempts with
  | Some later => Z.of_nat (List.length (filter (attempt_wrong sha stored) later))
  | None => failed_attempts app
            + Z.of_nat (List.length (filter (attempt_wrong sha stored) attempts))
  end.
Proof.
  cbv zeta. revert app. induction attempts as [|[pw ok] rest IH]; intros app.
  - cbn. split; [reflexivity|lia].
  - cbn [verify_all after_last_good].
    destruct (IH (snd (fst (verify sha app pw ok)))) as [Hcfg Hcount].
    destruct (verify_config sha app pw ok) as [Hc _].
    rewrite Hc in Hcfg, Hcount. split; [exact Hcfg|].
    rewrite Hcount.
    destruct (after_last_good (attempt_good sha (password_hash (config app))) rest);
      [reflexivity|].
    rewrite verify_counter. cbn [filter].
    destruct (attempt_good sha (password_hash (config app)) (pw, ok)) eqn:Hg.
    + reflexivity.
    + destruct (attempt_wrong sha (password_hash (config app)) (pw, ok));
        cbn [List.length]; lia.
Qed.

(** ** The tray actions *)

Lemma verify_rejects (sha : string -> string) (app : LockerApp) (pw : string) (ok : bool) :
  ok = false \/ hash_password sha pw <> password_hash (config app) ->
  fst (fst (verify sha app pw ok)) = false.
Proof.
  intros H. rewrite verify_verdict. unfold attempt_good. cbn [fst snd].
  destruct H as [-> | Hne]; [reflexivity|].
  apply String.eqb_neq in Hne. rewrite Hne. apply andb_false_r.
Qed.

Lemma verify_accepts (sha : string -> string) (app : LockerApp) (pw : string) :
  hash_password sha pw = password_hash (config app) ->
  verify sha app pw true = (true, set_attempts app 0 TipPlain, []).
Proof.
  intros Heq. unfold verify. cbn [negb]. apply String.eqb_eq in Heq. now rewrite Heq.
Qed.

(** Without the right password no tray action does anything to the
    schedule: when the dialog is cancelled or the digest of the
    password differs from the stored one, [toggle_schedule],
    [open_settings] and [exit_app] leave the configuration and the
    clock offset as they were, save nothing, do not retitle the menu
    entry and do not quit. *)
Theorem tray_actions_need_password
        (sha : string -> string) (app : LockerApp) (pw : string) (ok : bool)
        (presses : list ok_press) (res : tray_result) :
  ok = false \/ hash_password sha pw <> password_hash (config app) ->
  res = toggle_schedule sha app pw ok \/
  res = open_settings sha app pw ok presses \/
  res = exit_app sha app pw ok ->
  config (tr_app res) = config app /\
  offset (tr_app res) = offset app /\
  tr_saved res = None /\ tr_menu res = None /\ tr_quit res = false.
Proof.
  intros Hbad Hres.
  pose proof (verify_rejects sha app pw ok Hbad) as Hv.
  destruct (verify_config sha app pw ok) as [Hc Ho].
  unfold toggle_schedule, open_settings, exit_app in Hres.
  destruct (verify sha app pw ok) as [[verdict app1] evs].
  cbn [fst snd] in Hv, Hc, Ho. subst verdict.
  destruct Hres as [-> | [-> | ->]]; cbn; auto.
Qed.

Lemma tray_actions_need_password_witness :
  config (tr_app (toggle_schedule prefix_digest sample_app "letmein" true))
  = config sample_app /\
  tr_saved (toggle_schedule prefix_digest sample_app "letmein" true) = None /\
  tr_quit (exit_app prefix_digest sample_app "hunter2" false) = false.
Proof.
  destruct (tray_actions_need_password prefix_digest sample_app "letmein" true []
              (toggle_schedule prefix_digest sample_app "letmein" true))
    as (Hc & _ & Hs & _ & _); [right; discriminate | left; reflexivity |].
  destruct (tray_actions_need_password prefix_digest sample_app "hunter2" false []
              (exit_app prefix_digest sample_app "hunter2" false))
    as (_ & _ & _ & _ & Hq); [left; reflexivity | right; right; reflexivity |].
  split; [exact Hc|]. split; [exact Hs|exact Hq].
Defined.

Lemma set_enabled_twice (cfg : Config) :
  set_enabled (set_enabled cfg (negb (enabled cfg))) (negb (negb (enabled cfg))) = cfg.
Proof.
  destruct cfg as [h l u d e]. unfold set_enabled. cbn. now rewrite negb_involutive.
Qed.

(** With the right password [toggle_schedule] flips the enabled flag
    and nothing else of the schedule, saves it and retitles the menu
    entry to match; a second toggle restores the configuration.
    Once the schedule is toggled off, [check_lock] does nothing at
    any instant: it neither locks nor raises, whatever the times in
    the configuration are. *)
Theorem toggle_schedule_flips_enabled
        (sha : string -> string) (app : LockerApp) (pw : string) :
  hash_password sha pw = password_hash (config app) ->
  let res := toggle_schedule sha app pw true in
  let cfg' := set_enabled (config app) (negb (enabled (config app))) in
  config (tr_app res) = cfg' /\
  tr_saved res = Some cfg' /\
  tr_menu res = Some (if enabled (config app) then EnableSchedule else DisableSchedule) /\
  config (tr_app (toggle_schedule sha (tr_app res) pw true)) = config app /\
  (enabled (config app) = true ->
   forall (now : datetime) (os_error : option exn),
     check_lock (config (tr_app res)) now os_error = Return []).
Proof.
  intros Hpw res cfg'.
  assert (Hres : res = mkTrayResult (set_config (set_attempts app 0 TipPlain) cfg') []
                                    (Some cfg') (Some (toggle_text cfg')) false).
  { unfold res, toggle_schedule. now rewrite (verify_accepts sha app pw Hpw). }
  rewrite Hres. cbn [tr_app tr_saved tr_menu set_config config].
  split; [reflexivity|]. split; [reflexivity|]. split.
  { unfold toggle_text, cfg', set_enabled. cbn [enabled].
    now destruct (enabled (config app)). }
  split.
  - unfold toggle_schedule.
    rewrite (verify_accepts sha _ pw)
      by (cbn [config]; unfold cfg', set_enabled; cbn [password_hash]; exact Hpw).
    cbn [tr_app set_config set_attempts config].
    unfold cfg'. cbn [enabled set_enabled]. apply set_enabled_twice.
  - intros He now os_error. unfold check_lock, cfg', set_enabled. cbn [enabled].
    now rewrite He.
Qed.

Lemma toggle_schedule_flips_enabled_witness :
  enabled (config (tr_app (toggle_schedule prefix_digest sample_app "hunter2" true))) = false /\
  check_lock (config (tr_app (toggle_schedule prefix_digest sample_app "hunter2" true)))
             (at_time monday 20 0) None = Return [].
Proof.
  destruct (toggle_schedule_flips_enabled prefix_digest sample_app "hunter2" eq_refl)
    as (Hcfg & _ & _ & _ & Hoff).
  split.
  - rewrite Hcfg. reflexivity.
  - apply Hoff. reflexivity.
Defined.

Lemma dialog_exec_all_refused (sha : string -> string) (cfg : Config)
      (presses : list ok_press) :
  (forall p, In p presses ->
             accept sha (press_dialog p) false (press_pw1 p) (press_pw2 p) cfg = Rejected) ->
  dialog_exec sha cfg presses = None.
Proof.
  induction presses as [|p rest IH]; intros Hall; [reflexivity|].
  cbn [dialog_exec]. rewrite (Hall p) by now left.
  apply IH. intros q Hq. apply Hall. now right.
Qed.

Lemma dialog_exec_first_accepted (sha : string -> string) (cfg cfg' : Config)
      (before later : list ok_press) (p : ok_press) :
  (forall q, In q before ->
             accept sha (press_dialog q) false (press_pw1 q) (press_pw2 q) cfg = Rejected) ->
  accept sha (press_dialog p) false (press_pw1 p) (press_pw2 p) cfg = Accepted cfg' ->
  dialog_exec sha cfg (before ++ p :: later) = Some cfg'.
Proof.
  intros Hbefore Hp. induction before as [|q rest IH]; cbn [app dialog_exec].
  - now rewrite Hp.
  - rewrite (Hbefore q) by now left.
    apply IH. intros q' Hq'. apply Hbefore. now right.
Qed.

(** What [open_settings] saves, once the right password was given.
    When the dialog is cancelled at once or every OK is refused,
    nothing is saved and the configuration stays as it was.
    Otherwise the first OK that is not refused decides: what is saved
    and kept is the schedule of its widgets, with the digest of the
    password typed in it, or with the digest from before when its
    password field is blank; a typed password opens the gate from
    then on, and with a blank field the old password still does. *)
Theorem open_settings_password_change
        (sha : string -> string) (app : LockerApp) (pw : string) (presses : list ok_press) :
  hash_password sha pw = password_hash (config app) ->
  let res := open_settings sha app pw true presses in
  let try := fun p : ok_press =>
               accept sha (press_dialog p) false (press_pw1 p) (press_pw2 p) (config app) in
  ((forall p, In p presses -> try p = Rejected) ->
   tr_saved res = None /\ config (tr_app res) = config app)
  /\
  (forall (before later : list ok_press) (p : ok_press),
      presses = before ++ p :: later ->
      (forall q, In q before -> try q = Rejected) ->
      try p <> Rejected ->
      let hash' := if String.eqb (press_pw1 p) EmptyString
                   then password_hash (config app)
                   else hash_password sha (press_pw1 p) in
      let cfg' := store_schedule (press_dialog p) hash' in
      tr_saved res = Some cfg' /\
      config (tr_app res) = cfg' /\
      (press_pw1 p <> EmptyString ->
       fst (fst (verify sha (tr_app res) (press_pw1 p) true)) = true) /\
      (press_pw1 p = EmptyString ->
       fst (fst (verify sha (tr_app res) pw true)) = true)).
Proof.
  intros Hpw res try.
  assert (Hres : res =
                 let saved := dialog_exec sha (config app) presses in
                 let cfg' := match saved with Some c => c | None => config app end in
                 mkTrayResult (set_config (set_attempts app 0 TipPlain) cfg') []
                              saved (Some (toggle_text cfg')) false).
  { unfold res, open_settings. now rewrite (verify_accepts sha app pw Hpw). }
  rewrite Hres. cbv zeta. cbn [tr_app tr_saved set_config config].
  split.
  - intros Hall. rewrite (dialog_exec_all_refused sha (config app) presses Hall).
    split; reflexivity.
  - intros before later p -> Hbefore Hp.
    destruct (try p) as [|c] eqn:Hacc; [contradiction|]. unfold try in Hacc.
    rewrite (dialog_exec_first_accepted sha (config app) c before later p Hbefore Hacc).
    apply accept_Accepted_inv in Hacc.
    destruct Hacc as [(Hne & _ & ->) | (Hempty & _ & ->)].
    + apply String.eqb_neq in Hne. rewrite Hne.
      split; [reflexivity|]. split; [reflexivity|]. split.
      * intros _. rewrite verify_verdict. unfold attempt_good.
        cbn [fst snd config store_schedule password_hash andb].
        apply String.eqb_refl.
      * intros He. rewrite He in Hne. discriminate.
    + rewrite Hempty. cbn [String.eqb].
      split; [reflexivity|]. split; [reflexivity|]. split.
      * intros Hne. contradiction.
      * intros _. rewrite verify_verdict. unfold attempt_good.
        cbn [fst snd config store_schedule password_hash andb].
        now apply String.eqb_eq.
Qed.

Lemma open_settings_password_change_witness :
  tr_saved (open_settings prefix_digest sample_app "hunter2" true
                          [mkOkPress office_dialog "new" "old";
                           mkOkPress office_dialog "new" "new"])
  = Some (store_schedule office_dialog (prefix_digest "new")) /\
  fst (fst (verify prefix_digest
                   (tr_app (open_settings prefix_digest sample_app "hunter2" true
                                          [mkOkPress office_dialog "new" "old";
                                           mkOkPress office_dialog "new" "new"]))
                   "new" true)) = true.
Proof.
  destruct (open_settings_password_change prefix_digest sample_app "hunter2"
              [mkOkPress office_dialog "new" "old"; mkOkPress office_dialog "new" "new"]
              eq_refl) as [_ Hsaved].
  destruct (Hsaved [mkOkPress office_dialog "new" "old"] []
                   (mkOkPress office_dialog "new" "new") eq_refl)
    as (Hs & _ & Htyped & _).
  - intros q [<- | []]. reflexivity.
  - discriminate.
  - split; [exact Hs|]. apply Htyped. discriminate.
Defined.

(** ** The corrected clock *)




(** The dialog and the tray correct their clocks alike.  From the
    same response and the same clock reading, [update_google_time]
    and the thread of [sync_time] either both replace their offset by
    the same value or both keep the one they had, and the dialog logs
    a fetch error exactly when the tray logs a failed sync.  The
    dialog shows 'Error' exactly when it logged, and 'N/A' exactly
    when the response has no ['Date'] value; its closing countdown
    runs on the offset it ends with. *)
Theorem dialog_and_tray_agree_on_offset
        (strptime : string -> outcome datetime) (app : LockerApp) (dlg : SetupDialog)
        (r : head_result) (sys_local sys_now : datetime) :
  let res := update_google_time strptime (local_tz app) dlg r sys_local sys_now in
  let synced := work strptime app r sys_local in
  (exists upd : option timedelta,
      dialog_offset (gu_dialog res)
      = match upd with Some off => off | None => dialog_offset dlg end /\
      offset (fst synced)
      = match upd with Some off => off | None => offset app end) /\
  (gu_logged res <> None <-> logs_sync_failure (snd synced) = true) /\
  (gu_text res = GoogleError <-> gu_logged res <> None) /\
  (gu_text res = GoogleNA <-> exists d, r = HeadResponse d /\ truthy d = None) /\
  gu_countdown res = update_countdown (gu_dialog res) sys_now.
Proof.
  cbv zeta. unfold update_google_time, work, work_try.
  destruct r as [e | date_str].
  - split; [exists None; split; reflexivity|].
    cbn. repeat split; auto; try discriminate.
    intros (d & Hd & _). discriminate.
  - destruct (truthy date_str) as [s|] eqn:Ht.
    + destruct (strptime s) as [dt_utc|e]; cbn [bind].
      * split; [eexists (Some _); split; reflexivity|].
        cbn. repeat split; auto; try discriminate; try congruence.
        intros (d & [= <-] & Hd). congruence.
      * split; [exists None; split; reflexivity|].
        cbn. repeat split; auto; try discriminate.
        intros (d & [= <-] & Hd). congruence.
    + split; [exists None; split; reflexivity|].
      cbn. repeat split; auto; try discriminate; try congruence.
      intros _. now exists date_str.
Qed.

(** ** The configuration file *)

Lemma dict_get_set_same (k : string) (v : json) (d : dict) :
  dict_get k (dict_set k v d) = Some v.
Proof.
  induction d as [|[k' v'] rest IH]; cbn [dict_set dict_get].
  - now rewrite String.eqb_refl.
  - destruct (String.eqb k k') eqn:Hk; cbn [dict_get]; rewrite Hk; auto.
Qed.

Lemma dict_get_set_other (k k0 : string) (v : json) (d : dict) :
  k0 <> k -> dict_get k0 (dict_set k v d) = dict_get k0 d.
Proof.
  intros Hne. induction d as [|[k' v'] rest IH]; cbn [dict_set dict_get].
  - apply String.eqb_neq in Hne. now rewrite Hne.
  - destruct (String.eqb_spec k k') as [-> | Hk]; cbn [dict_get].
    + apply String.eqb_neq in Hne. now rewrite Hne.
    + now rewrite IH.
Qed.

(** Loading never leaves the unlock time out, and changes nothing
    else.  After [load] the key ['unlock_time'] is present; a file
    without it gets the default ['06:00'], every other key keeps the
    value the file has, and no key is added besides; a file that has
    it is taken as it is; without a file the defaults are used.
    Saving what was loaded and loading again gives the same data. *)
Theorem load_injects_unlock_time (file : option dict) :
  dict_mem "unlock_time" (load file) = true /\
  (forall (data : dict) (k : string),
      file = Some data -> k <> "unlock_time"%string ->
      dict_get k (load file) = dict_get k data) /\
  (forall data : dict,
      file = Some data ->
      dict_get "unlock_time" (load file)
      = match dict_get "unlock_time" data with
        | Some v => Some v
        | None => Some (JString "06:00")
        end) /\
  (forall data : dict,
      file = Some data -> dict_mem "unlock_time" data = true -> load file = data) /\
  (file = None -> load file = DEFAULT_CONFIG_data) /\
  load (save (load file)) = load file.
Proof.
  assert (Hmem : dict_mem "unlock_time" (load file) = true).
  { destruct file as [data|]; [|reflexivity]. unfold load.
    destruct (dict_mem "unlock_time" data) eqn:Hm; cbn [negb]; [exact Hm|].
    cbn [DEFAULT_CONFIG_data dict_get String.eqb Ascii.eqb Bool.eqb].
    unfold dict_mem. now rewrite dict_get_set_same. }
  split; [exact Hmem|]. split; [|split; [|split; [|split]]].
  - intros data k -> Hk. unfold load.
    destruct (dict_mem "unlock_time" data); cbn [negb]; [reflexivity|].
    cbn [DEFAULT_CONFIG_data dict_get String.eqb Ascii.eqb Bool.eqb].
    now apply dict_get_set_other.
  - intros data ->. unfold load, dict_mem.
    destruct (dict_get "unlock_time" data) as [v|] eqn:Hg; cbn [negb]; [exact Hg|].
    cbn [DEFAULT_CONFIG_data dict_get String.eqb Ascii.eqb Bool.eqb].
    apply dict_get_set_same.
  - intros data -> Hm. unfold load. now rewrite Hm.
  - intros ->. reflexivity.
  - unfold save. unfold load at 1. now rewrite Hmem.
Qed.

Lemma load_injects_unlock_time_witness :
  dict_get "unlock_time" (load (Some old_file)) = Some (JString "06:00") /\
  dict_get "lock_time" (load (Some old_file)) = Some (JString "22:30").
Proof.
  destruct (load_injects_unlock_time (Some old_file)) as (_ & Hkeep & Hunlock & _).
  split.
  - apply (Hunlock old_file eq_refl).
  - apply (Hkeep old_file "lock_time"%string eq_refl). discriminate.
Defined.
